(* ===== verification/_CoqProject ===== *)
-Q . S2P
Prelude.v
PyStr.v
Json.v
Responses.v
Agents.v
Workflow.v
AgentRun.v
Repl.v
Main.v
Program.v
Hosted.v
