(* ===== verification/Prelude.v ===== *)
(** * A verification development of docs-agent

    docs-agent wires three hosted language-model agents into a fixed
    three-stage pipeline and serves it through one of three front ends.
    The repository is Python glue around the Microsoft Agent Framework:

    - [src/agents/rewrite.py], [src/src/docs-agent/agents/docs.py],
      [src/src/docs-agent/agents/summarize.py] build the three
      [ChatAgent]s (a name, an instruction string, an optional tool and an
      optional structured response format); the docs agent also builds the
      [MCPStreamableHTTPTool] that lets it call [microsoft_docs_search].
    - [src/models/responses.py] declares [DocsResponse], the pydantic model
      of the docs agent's structured output.
    - [src/src/agents-in-workflow/workflows/documentation.py] builds the
      workflow with a [WorkflowBuilder]: summarize is the output node,
      rewrite -> docs -> summarize are the edges, rewrite is the start.
    - [src/main.py] and [src/src/agents-in-workflow/main.py] read the
      configuration, build the agents and the workflow ([create_workflow])
      and dispatch on [MODE]: hosted agent, CLI loop ([repl]) or dev UI.
      The nested variant also patches [Workflow.run_stream].

    Files of this development, in dependency order:

    - [Prelude] (this file): the [result] error type with stdpp's monad
      classes, its notation scope [docs_scope], the hint databases [docs]
      and [docs_rw], the tactic [inv_bind] and the list lemmas the
      components share.
    - [PyStr]: the Python builtins the CLI loop calls on text: [str.strip],
      [str.lower], the truthiness of a string and the exit test
      ([exit_command_iff]: the loop leaves exactly on padded exit/quit in
      any case).
    - [Json]: JSON values, the compact printer and a byte-level parser
      with fuel (escapes, surrogate pairs, the number grammar); the
      print/parse round trip [parse_json_dumps] for every well-formed
      value, with the fuel bound [json_size_print].
    - [Responses]: [DocsResponse] of [src/models/responses.py] and its
      pydantic JSON-mode validation and encoding; the round trip
      [model_validate_dump], the characterisation of a successful
      validation, the exact per-item errors and that extra keys are
      ignored.
    - [Agents]: [ChatAgent], [MCPStreamableHTTPTool], the chat client, the
      three [create_*_agent] constructors with decidable equality of the
      objects, and the tool allow-list ([agent_tool_for]).  Theorem: the
      docs agent exposes exactly [microsoft_docs_search] through the tool
      object it returns, the other two agents nothing
      ([agent_permissions]).
    - [Workflow]: the [WorkflowBuilder] (add_agent with its wrapper cache
      and its duplicate-id check, add_edge, set_start_executor, build with
      its checks; each call returns the builder or the error it raises),
      [create_documentation_workflow], the spec's linear builder and walk,
      and the superstep runner [run_stream] with its event stream.  The
      class [AgentService] is the interface between the runner and the
      agents: the workflow theorems hold for every instance.  Theorems:
      for agents with distinct names the wiring is a linear workflow whose
      runs are the spec's walk (a refinement), a run emits exactly the
      composed answer or the first agent's error, and the wiring raises a
      duplicate-id error exactly when two different agents share a name
      ([documentation_workflow_error]).
    - [AgentRun]: [ChatAgent.run] modelled from the spec: the tool-calling
      loop, the allow-list, the schema check and the error taxonomy
      ([SchemaViolation], [ToolNotPermitted], [UpstreamServiceError]);
      [framework_service] is its [AgentService] instance.  Theorems: the
      docs agent only ever calls [microsoft_docs_search] on its own tool,
      its answers always validate, the tool-less agents refuse every call,
      summarize accepts any text, and every workflow output is the summary
      of a validated docs answer.
    - [Repl]: the CLI loop of [main]: scoped acquisition of the four
      resources ([with_resources]: enter in order, exit in reverse), the
      read loop with its empty-line, exit and run branches, and the
      printed trace.  Theorems: the answer printed for a query, resource
      release on every exit path, that a failing run ends the session
      (the code does not catch it), which lines reach the workflow, and
      the liveness of a session without failures: every query's answer
      is printed, in order, and the session ends at the exit command or
      the end of the input ([repl_answers_every_query]).
    - [Main]: configuration ([load_dotenv] over [os.environ] as a gmap,
      [os.getenv]), the two [create_workflow] variants, [MODE] dispatch
      and the monkey patch of [run_stream].  Theorems: start-up fails
      without credentials, the agents share one client, the default mode
      of each entry point, that a [MODE] in [.env] is ignored, unknown
      modes, and that the start-up log never shows the key.
    - [Program]: the script as a whole: the [if __name__ == "__main__"]
      guard of both entry points and [main] composed with the CLI session
      it starts ([run_main_with]), ending in a [ProgramEnd].  Theorems: run
      with credentials and no [MODE], [src/main.py] prints the banner and
      one answer per query, releases its resources and ends at the exit
      command or with an uncaught [EOFError] ([cli_program_session]); an
      agent failure on a query ends the whole program with that error,
      after the resources are released ([cli_program_failed_query]); the
      nested variant serves the dev UI with only an endpoint configured
      ([nested_program_serves_devui]).
    - [Hosted]: the hosted-agent mode: [workflow.as_agent()], the
      workflow agent's run and the adapter's per-request replies, modelled
      from the spec (the hosting surfaces keep no state; an error aborts
      only its own request), and [serve_outcome], the code's hosted branch.
      Theorem: with [MODE=hosted_agent] every request gets the composed
      answer or its own first agent failure, independently of the other
      requests ([hosted_program_replies]).

    What is modelled from the spec and not from [src/]: the Agent Framework
    itself (builder, runner, agent run) and pydantic's JSON parsing,
    validation and serialisation; the manifest marks those definitions
    [spec_modelled].  The language model and the MCP server are opaque
    services: in [AgentRun] they are the section variables [infer] and
    [call_tool], elsewhere an arbitrary [AgentService], so every theorem
    holds for every behaviour of the remote services.

    Bounds and fuel: the runner uses the framework's superstep limit
    [max_iterations = 100]; a linear workflow of at most 101 agents
    completes within it (the three-agent pipeline needs three supersteps)
    and a longer one fails with a convergence error ([long_chain_diverges]).
    Neither the code nor the spec bounds the tool rounds of an agent run:
    [AgentRun] observes a run for [turns] model turns, a variable every
    theorem quantifies over, and a run that has not answered by then has
    no outcome yet (it is not an error).  The JSON parser gets one unit of
    fuel per byte plus one, which is enough for every printed value
    because a value's size never exceeds its printed length.  The CLI
    loop recurses on the list of input lines, so it needs no fuel.

    Not modelled: the dev UI server (a browser inspector of an external
    library that processes no business input: only the entities handed
    to it are modelled), the HTTP framing and error format of the
    hosted-agent adapter (the spec leaves them to the adapter), the
    import statements (name binding with no behaviour of their own), the
    language model's text, the conversation
    objects the framework passes between executors (a message is its
    text here), and non-ASCII whitespace and case mapping in
    [str.strip]/[str.lower] (text is a byte string here). *)

From stdpp Require Export base list strings gmap.

Declare Scope docs_scope.
Delimit Scope docs_scope with docs.

(** ** Results: the error paths of the code as values *)

Inductive result (E A : Type) : Type :=
| Ok (a : A)
| Err (e : E).
Arguments Ok {E A} a.
Arguments Err {E A} e.

#[export] Instance result_ret E : MRet (result E) := λ A a, Ok a.
#[export] Instance result_bind E : MBind (result E) :=
  λ A B f r, match r with Ok a => f a | Err e => Err e end.
#[export] Instance result_fmap E : FMap (result E) :=
  λ A B f r, match r with Ok a => Ok (f a) | Err e => Err e end.

(** Re-tag the error of a computation (an [except ... raise ...] of the
    code, or a framework wrapping an inner exception). *)
Definition map_err {E E' A} (f : E → E') (r : result E A) : result E' A :=
  match r with Ok a => Ok a | Err e => Err (f e) end.

Notation "r '!?' f" := (map_err f r) (at level 58, left associativity) : docs_scope.

Definition is_ok {E A} (r : result E A) : bool :=
  match r with Ok _ => true | Err _ => false end.

(** A list does not start with an element satisfying [p]. *)
Definition head_not {A} (p : A → bool) (l : list A) : Prop :=
  match l with [] => True | c :: _ => p c = false end.

Section ResultLemmas.
Context {E A B : Type}.

Lemma bind_Ok (a : A) (f : A → result E B) : (Ok a ≫= f) = f a.
Proof. reflexivity. Qed.

Lemma bind_Err (e : E) (f : A → result E B) : (Err e ≫= f) = Err e.
Proof. reflexivity. Qed.

Lemma bind_eq_Ok (r : result E A) (f : A → result E B) b :
  (r ≫= f) = Ok b ↔ ∃ a, r = Ok a ∧ f a = Ok b.
Proof.
  destruct r as [a|e]; simpl; split.
  - eauto.
  - by intros (? & [= ->] & ?).
  - discriminate.
  - by intros (? & ? & ?).
Qed.

Lemma bind_eq_Err (r : result E A) (f : A → result E B) e :
  (r ≫= f) = Err e ↔ r = Err e ∨ ∃ a, r = Ok a ∧ f a = Err e.
Proof.
  destruct r as [a|e']; simpl; split.
  - eauto.
  - by intros [|(? & [= ->] & ?)].
  - intros [= ->]; auto.
  - by intros [[= ->]|(? & ? & ?)].
Qed.

Lemma map_err_Ok {E'} (f : E → E') (r : result E A) a :
  map_err f r = Ok a ↔ r = Ok a.
Proof. destruct r; simpl; split; congruence. Qed.
End ResultLemmas.

Lemma mapM_cons_Ok {E A B} (f : A → result E B) x l ys :
  mapM f (x :: l) = Ok ys ↔ ∃ y ys', f x = Ok y ∧ mapM f l = Ok ys' ∧ ys = y :: ys'.
Proof.
  change (mapM f (x :: l)) with (f x ≫= λ y, mapM f l ≫= λ k, mret (y :: k)).
  rewrite bind_eq_Ok. split.
  - intros (y & Hy & (ys' & Hys & [= <-])%bind_eq_Ok). eauto.
  - intros (y & ys' & Hy & Hys & ->). exists y. split; [done|]. by rewrite Hys.
Qed.

Create HintDb docs discriminated.
Create Rewrite HintDb docs_rw.
#[export] Hint Rewrite @bind_Ok @bind_Err : docs_rw.

(** Split a hypothesis [r ≫= f = Ok b] or [Err] into its parts. *)
Ltac inv_bind :=
  repeat match goal with
  | H : (_ ≫= _) = Ok _ |- _ =>
      apply bind_eq_Ok in H as (? & ? & ?)
  | H : map_err _ _ = Ok _ |- _ => apply map_err_Ok in H
  | H : Ok _ = Ok _ |- _ => injection H as H
  | H : Ok _ = Err _ |- _ => discriminate H
  | H : Err _ = Ok _ |- _ => discriminate H
  end.

(** ** Lists shared by the components *)

Lemma filter_app_length {A} (P : A → Prop) `{∀ x, Decision (P x)} (l1 l2 : list A) :
  length (filter P (l1 ++ l2)) = length (filter P l1) + length (filter P l2).
Proof. by rewrite filter_app, length_app. Qed.

Lemma forallb_Forall {A} (p : A → bool) l : forallb p l = true → Forall (λ x, p x = true) l.
Proof. induction l as [|x l IH]; simpl; [done|]. intros [? ?]%andb_prop. constructor; auto. Qed.

Lemma Forall_and_intro {A} (P Q : A → Prop) l : Forall P l → Forall Q l → Forall (λ x, P x ∧ Q x) l.
Proof. intros HP HQ. apply Forall_and; auto. Qed.

Lemma sum_list_with_mono {A} (f g : A → nat) l :
  Forall (λ x, f x ≤ g x) l → sum_list_with f l ≤ sum_list_with g l.
Proof. induction 1; simpl; lia. Qed.

Lemma sum_list_with_map {A B} (f : B → nat) (g : A → B) l :
  sum_list_with f (map g l) = sum_list_with (λ x, f (g x)) l.
Proof. induction l; simpl; auto. Qed.
