(* ===== verification/PyStr.v ===== *)
(** * The Python text builtins the code relies on

    The CLI loop of [src/main.py] (lines 61-66) reads a line, applies
    [str.strip], tests it for emptiness ([if not user_input]) and compares
    its [str.lower] with the set [{"exit", "quit"}].  Text is a byte string
    ([string]); whitespace and case are Python's on the ASCII range:
    [str.isspace] holds for tab, line feed, vertical tab, form feed,
    carriage return, the separators 0x1c-0x1f and space. *)

From S2P Require Import Prelude.

(** ** Definitions *)

Definition py_isspace (c : Ascii.ascii) : bool :=
  let n := Ascii.nat_of_ascii c in
  bool_decide (9 ≤ n ≤ 13) || bool_decide (28 ≤ n ≤ 32).

(** Drop the leading characters that satisfy [p]. *)
Fixpoint drop_while (p : Ascii.ascii → bool) (l : list Ascii.ascii) : list Ascii.ascii :=
  match l with
  | [] => []
  | c :: l' => if p c then drop_while p l' else l
  end.

(** Strip on the character list: drop the leading whitespace, then the
    trailing whitespace (the leading whitespace of the reversed rest). *)
Definition strip_list (l : list Ascii.ascii) : list Ascii.ascii :=
  rev (drop_while py_isspace (rev (drop_while py_isspace l))).

(** [str.strip()]: remove leading and trailing whitespace. *)
Definition py_strip (s : string) : string :=
  String.string_of_list_ascii (strip_list (String.list_ascii_of_string s)).

Definition ascii_lower (c : Ascii.ascii) : Ascii.ascii :=
  let n := Ascii.nat_of_ascii c in
  if bool_decide (65 ≤ n ≤ 90) then Ascii.ascii_of_nat (n + 32) else c.

(** [str.lower()]. *)
Definition py_lower (s : string) : string :=
  String.string_of_list_ascii (ascii_lower <$> String.list_ascii_of_string s).

(** [not s] for a string: only the empty string is falsy. *)
Definition py_falsy (s : string) : bool :=
  match s with EmptyString => true | _ => false end.

(** [user_input.lower() in {"exit", "quit"}]. *)
Definition is_exit_command (user_input : string) : bool :=
  bool_decide (py_lower user_input ∈ ({["exit"; "quit"]} : gset string)).

(** Neither end of [m] is whitespace. *)
Definition stripped (m : list Ascii.ascii) : Prop :=
  head_not py_isspace m ∧ head_not py_isspace (rev m).

Definition all_space (l : list Ascii.ascii) : Prop := Forall (λ c, py_isspace c = true) l.

(** ** Lemmas *)

Lemma drop_while_spec p l :
  ∃ pre, l = pre ++ drop_while p l ∧ Forall (λ c, p c = true) pre ∧ head_not p (drop_while p l).
Proof.
  induction l as [|c l (pre & Hl & Hpre & Hh)]; simpl.
  - by exists [].
  - destruct (p c) eqn:Hc.
    + exists (c :: pre). simpl. rewrite <-Hl. auto.
    + by exists [].
Qed.

Lemma drop_while_app p pre l :
  Forall (λ c, p c = true) pre → head_not p l → drop_while p (pre ++ l) = l.
Proof.
  induction 1 as [|c pre Hc _ IH]; intros Hl; simpl.
  - destruct l as [|c l]; simpl in *; [done|]. by rewrite Hl.
  - by rewrite Hc, IH.
Qed.

Lemma drop_while_snoc p l c :
  p c = false → drop_while p (l ++ [c]) = drop_while p l ++ [c].
Proof.
  intros Hc. induction l as [|d l IH]; simpl; [by rewrite Hc|].
  by destruct (p d).
Qed.

(** [strip_list] removes whitespace only, and all of it at both ends. *)
Lemma strip_list_spec l :
  ∃ pre suf, l = pre ++ strip_list l ++ suf ∧ all_space pre ∧ all_space suf ∧
    stripped (strip_list l).
Proof.
  destruct (drop_while_spec py_isspace l) as (pre & Hl & Hpre & Hh).
  remember (drop_while py_isspace l) as m eqn:Em.
  destruct (drop_while_spec py_isspace (rev m)) as (rsuf & Hm & Hsuf & Hh').
  exists pre, (rev rsuf). unfold strip_list. rewrite <-Em.
  split_and!; [|done| |].
  - rewrite Hl at 1. f_equal. rewrite <-rev_app_distr, <-Hm. by rewrite rev_involutive.
  - by apply Forall_rev.
  - split; [|by rewrite rev_involutive].
    destruct m as [|c m']; [done|]. simpl in Hh |- *.
    rewrite drop_while_snoc, rev_app_distr by done. done.
Qed.

(** Stripping whitespace-padded text gives the text back. *)
Lemma strip_list_app pre m suf :
  all_space pre → all_space suf → stripped m → strip_list (pre ++ m ++ suf) = m.
Proof.
  intros Hpre Hsuf [Hh Hr]. unfold strip_list.
  destruct m as [|c m'].
  - simpl. rewrite <-(app_nil_r (pre ++ suf)), drop_while_app; [done| |done].
    by apply Forall_app.
  - rewrite drop_while_app by done.
    rewrite rev_app_distr, drop_while_app by (by apply Forall_rev || done).
    apply rev_involutive.
Qed.

Lemma ascii_lower_space c : py_isspace c = true → ascii_lower c = c.
Proof.
  unfold py_isspace, ascii_lower. intros Hs.
  rewrite bool_decide_eq_false_2; [done|].
  apply orb_true_iff in Hs as [Hs|Hs]; apply bool_decide_eq_true in Hs; lia.
Qed.

Lemma rev_fmap {A B} (f : A → B) (l : list A) : rev (f <$> l) = f <$> rev l.
Proof. induction l as [|x l IH]; [done|]. rewrite fmap_cons. cbn [rev]. by rewrite IH, fmap_app. Qed.

Lemma head_not_lower l :
  head_not py_isspace (ascii_lower <$> l) → head_not py_isspace l.
Proof.
  destruct l as [|c l]; simpl; [done|]. intros Hc.
  destruct (py_isspace c) eqn:Hs; [|done]. rewrite ascii_lower_space in Hc by done. congruence.
Qed.

Lemma py_lower_stripped w :
  stripped (String.list_ascii_of_string (py_lower w)) →
  stripped (String.list_ascii_of_string w).
Proof.
  unfold py_lower, stripped. rewrite String.list_ascii_of_string_of_list_ascii, rev_fmap.
  intros [H1 H2]. split; by apply head_not_lower.
Qed.

(** [py_strip s] is the text [t] that remains when the leading and
    trailing whitespace of [s] is removed, and only that: [s] is [t] padded
    by whitespace on both sides and [t] neither starts nor ends with
    whitespace. *)
Lemma py_strip_iff s t :
  py_strip s = t ↔
  ∃ pre suf, String.list_ascii_of_string s = pre ++ String.list_ascii_of_string t ++ suf ∧
    all_space pre ∧ all_space suf ∧ stripped (String.list_ascii_of_string t).
Proof.
  unfold py_strip. split.
  - intros <-. rewrite String.list_ascii_of_string_of_list_ascii. apply strip_list_spec.
  - intros (pre & suf & Hs & Hpre & Hsuf & Ht). rewrite Hs, strip_list_app by done.
    apply String.string_of_list_ascii_of_string.
Qed.

(** C26: the CLI loop leaves on exactly the lines that are [exit] or [quit]
    in any mix of upper and lower case, padded by whitespace on either
    side; any other text, such as [ex it] or [exits], is a query. *)
Theorem exit_command_iff s :
  is_exit_command (py_strip s) = true ↔
  ∃ pre w suf, String.list_ascii_of_string s = pre ++ String.list_ascii_of_string w ++ suf ∧
    all_space pre ∧ all_space suf ∧ (py_lower w = "exit" ∨ py_lower w = "quit").
Proof.
  unfold is_exit_command. rewrite bool_decide_eq_true. split.
  - intros Hin. destruct (proj1 (py_strip_iff s (py_strip s)) eq_refl)
      as (pre & suf & Hs & Hpre & Hsuf & _).
    exists pre, (py_strip s), suf. split_and!; [done|done|done|set_solver].
  - intros (pre & w & suf & Hs & Hpre & Hsuf & Hw).
    assert (Hstr : stripped (String.list_ascii_of_string w)).
    { apply py_lower_stripped. destruct Hw as [-> | ->]; split; reflexivity. }
    rewrite (proj2 (py_strip_iff s w)); [|by exists pre, suf].
    destruct Hw as [-> | ->]; set_solver.
Qed.

Example exit_command_examples :
  is_exit_command (py_strip "  ExIt ") = true ∧ is_exit_command (py_strip "QUIT") = true ∧
  is_exit_command (py_strip "ex it") = false ∧ is_exit_command (py_strip "exits") = false.
Proof. vm_compute. auto. Qed.
