(* ===== verification/Json.v ===== *)
(** * JSON text: values, the printer and the parser

    The docs agent's structured output ([response_format=DocsResponse],
    [src/src/docs-agent/agents/docs.py] line 22) is JSON text that
    pydantic parses and validates; [Responses] validates the parsed value.
    Neither pydantic's parser nor its serializer is code of this
    repository: both are modelled from the JSON grammar.

    - Text is a list of bytes.  Strings hold the bytes of their UTF-8
      text; a [\uXXXX] escape is decoded to UTF-8 (a surrogate pair to
      four bytes, a lone surrogate is an error).
    - A number keeps its lexeme: the parser takes the longest run of
      number characters and accepts it when it matches the JSON number
      grammar, which accepts and rejects exactly the documents the grammar
      does.
    - The parser is a fuel-indexed mutual recursion (values, array items,
      object members); [parse_json] gives it one unit per byte plus one,
      which [parse_print] shows is enough for every printed value.
    - The printer is pydantic's compact [model_dump_json] form: no
      whitespace, a backslash before a quote or a backslash, the
      one-letter escapes b, f, n, r, t for their control bytes and a
      [\u00XX] escape for the other control bytes. *)

From S2P Require Import Prelude.

Local Set Warnings "-abstract-large-number -register-all".

(** ** Definitions *)

Abbreviation bytes := (list Ascii.ascii).

Inductive json :=
| JNull
| JBool (b : bool)
| JNum (lexeme : string)
| JStr (s : string)
| JArr (items : list json)
| JObj (members : list (string * json)).

Definition code (c : Ascii.ascii) : nat := Ascii.nat_of_ascii c.
Definition chr (n : nat) : Ascii.ascii := Ascii.ascii_of_nat n.

Definition is_json_ws (c : Ascii.ascii) : bool :=
  bool_decide (code c = 32 ∨ code c = 9 ∨ code c = 10 ∨ code c = 13).

Fixpoint skip_ws (l : bytes) : bytes :=
  match l with
  | c :: l' => if is_json_ws c then skip_ws l' else l
  | [] => []
  end.

Definition is_digit (c : Ascii.ascii) : bool := bool_decide (48 ≤ code c ≤ 57).

(** The bytes that may occur in a number lexeme. *)
Definition is_number_char (c : Ascii.ascii) : bool :=
  is_digit c || bool_decide (code c ∈ [45; 43; 46; 101; 69]).

(** Split off the longest prefix whose bytes satisfy [p]. *)
Fixpoint span (p : Ascii.ascii → bool) (l : bytes) : bytes * bytes :=
  match l with
  | c :: l' => if p c then let '(a, b) := span p l' in (c :: a, b) else ([], l)
  | [] => ([], [])
  end.

(** The exponent part (e or E, an optional sign, at least one digit) or
    nothing. *)
Definition valid_exp (l : bytes) : bool :=
  match l with
  | [] => true
  | e :: r =>
      bool_decide (code e = 101 ∨ code e = 69) &&
      let r := match r with s :: r' => if bool_decide (code s = 43 ∨ code s = 45) then r' else r | [] => [] end in
      bool_decide (r ≠ []) && forallb is_digit r
  end.

(** The JSON number grammar after its optional minus: an integer part
    that is 0 or does not start with 0, an optional fraction of at least
    one digit and an optional exponent. *)
Definition valid_unsigned (l : bytes) : bool :=
  let '(ip, r1) := span is_digit l in
  let int_ok := match ip with
                | [] => false
                | d :: ds => bool_decide (code d ≠ 48) || bool_decide (ds = [])
                end in
  int_ok &&
  match r1 with
  | d :: r2 =>
      if bool_decide (code d = 46) then
        let '(fp, r3) := span is_digit r2 in bool_decide (fp ≠ []) && valid_exp r3
      else valid_exp r1
  | [] => true
  end.

(** An optional minus, then an unsigned number. *)
Definition valid_number (lx : bytes) : bool :=
  match lx with
  | c :: r => if bool_decide (code c = 45) then valid_unsigned r else valid_unsigned lx
  | [] => false
  end.

Definition hex_val (c : Ascii.ascii) : option nat :=
  let n := code c in
  if bool_decide (48 ≤ n ≤ 57) then Some (n - 48)
  else if bool_decide (97 ≤ n ≤ 102) then Some (n - 87)
  else if bool_decide (65 ≤ n ≤ 70) then Some (n - 55)
  else None.

Definition hex4 (a b c d : Ascii.ascii) : option nat :=
  match hex_val a, hex_val b, hex_val c, hex_val d with
  | Some x, Some y, Some z, Some w => Some (x * 4096 + y * 256 + z * 16 + w)
  | _, _, _, _ => None
  end.

(** The UTF-8 bytes of a code point. *)
Definition utf8_encode (cp : nat) : bytes :=
  if bool_decide (cp < 128) then [chr cp]
  else if bool_decide (cp < 2048) then [chr (192 + cp / 64); chr (128 + cp mod 64)]
  else if bool_decide (cp < 65536) then
    [chr (224 + cp / 4096); chr (128 + (cp / 64) mod 64); chr (128 + cp mod 64)]
  else [chr (240 + cp / 262144); chr (128 + (cp / 4096) mod 64);
        chr (128 + (cp / 64) mod 64); chr (128 + cp mod 64)].

(** The byte a one-letter escape stands for: a quote, a backslash, a
    slash, or the control byte of b, f, n, r, t. *)
Definition simple_escape (e : Ascii.ascii) : option Ascii.ascii :=
  let n := code e in
  if bool_decide (n = 34) then Some (chr 34)
  else if bool_decide (n = 92) then Some (chr 92)
  else if bool_decide (n = 47) then Some (chr 47)
  else if bool_decide (n = 98) then Some (chr 8)
  else if bool_decide (n = 102) then Some (chr 12)
  else if bool_decide (n = 110) then Some (chr 10)
  else if bool_decide (n = 114) then Some (chr 13)
  else if bool_decide (n = 116) then Some (chr 9)
  else None.

Definition prepend (d : bytes) (o : option (bytes * bytes)) : option (bytes * bytes) :=
  (λ '(s, r), (d ++ s, r)) <$> o.

(** The body of a string after its opening quote: the decoded bytes and
    the text after the closing quote. *)
Fixpoint parse_chars (l : bytes) : option (bytes * bytes) :=
  match l with
  | [] => None
  | c :: l' =>
      if bool_decide (code c = 34) then Some ([], l')
      else if bool_decide (code c = 92) then
        match l' with
        | [] => None
        | e :: l'' =>
            match simple_escape e with
            | Some d => prepend [d] (parse_chars l'')
            | None =>
                if bool_decide (code e = 117) then
                  match l'' with
                  | h1 :: h2 :: h3 :: h4 :: l3 =>
                      match hex4 h1 h2 h3 h4 with
                      | None => None
                      | Some cp =>
                          if bool_decide (55296 ≤ cp ≤ 56319) then
                            match l3 with
                            | b :: u :: k1 :: k2 :: k3 :: k4 :: l4 =>
                                if bool_decide (code b = 92 ∧ code u = 117) then
                                  match hex4 k1 k2 k3 k4 with
                                  | Some lo =>
                                      if bool_decide (56320 ≤ lo ≤ 57343) then
                                        prepend (utf8_encode (65536 + (cp - 55296) * 1024 + (lo - 56320)))
                                          (parse_chars l4)
                                      else None
                                  | None => None
                                  end
                                else None
                            | _ => None
                            end
                          else if bool_decide (56320 ≤ cp ≤ 57343) then None
                          else prepend (utf8_encode cp) (parse_chars l3)
                      end
                  | _ => None
                  end
                else None
            end
        end
      else if bool_decide (code c < 32) then None
      else prepend [c] (parse_chars l')
  end.

(** Strip a literal prefix. *)
Fixpoint strip_prefix (p l : bytes) : option bytes :=
  match p, l with
  | [], _ => Some l
  | a :: p', b :: l' => if bool_decide (a = b) then strip_prefix p' l' else None
  | _ :: _, [] => None
  end.

Definition lit (s : string) : bytes := String.list_ascii_of_string s.

Fixpoint parse_value (fuel : nat) (l : bytes) : option (json * bytes) :=
  match fuel with
  | 0 => None
  | S f =>
      match skip_ws l with
      | [] => None
      | c :: r =>
          let n := code c in
          if bool_decide (n = 110) then (λ r', (JNull, r')) <$> strip_prefix (lit "ull") r
          else if bool_decide (n = 116) then (λ r', (JBool true, r')) <$> strip_prefix (lit "rue") r
          else if bool_decide (n = 102) then (λ r', (JBool false, r')) <$> strip_prefix (lit "alse") r
          else if bool_decide (n = 34) then
            (λ '(s, r'), (JStr (String.string_of_list_ascii s), r')) <$> parse_chars r
          else if bool_decide (n = 91) then
            match skip_ws r with
            | d :: r' => if bool_decide (code d = 93) then Some (JArr [], r') else parse_items f r []
            | [] => None
            end
          else if bool_decide (n = 123) then
            match skip_ws r with
            | d :: r' => if bool_decide (code d = 125) then Some (JObj [], r') else parse_members f r []
            | [] => None
            end
          else if bool_decide (n = 45) || is_digit c then
            let '(lx, r') := span is_number_char (c :: r) in
            if valid_number lx then Some (JNum (String.string_of_list_ascii lx), r') else None
          else None
      end
  end
with parse_items (fuel : nat) (l : bytes) (acc : list json) : option (json * bytes) :=
  match fuel with
  | 0 => None
  | S f =>
      match parse_value f l with
      | None => None
      | Some (v, r) =>
          match skip_ws r with
          | d :: r' =>
              if bool_decide (code d = 44) then parse_items f r' (acc ++ [v])
              else if bool_decide (code d = 93) then Some (JArr (acc ++ [v]), r')
              else None
          | [] => None
          end
      end
  end
with parse_members (fuel : nat) (l : bytes) (acc : list (string * json)) : option (json * bytes) :=
  match fuel with
  | 0 => None
  | S f =>
      match skip_ws l with
      | q :: r =>
          if bool_decide (code q = 34) then
            match parse_chars r with
            | None => None
            | Some (k, r1) =>
                match skip_ws r1 with
                | col :: r2 =>
                    if bool_decide (code col = 58) then
                      match parse_value f r2 with
                      | None => None
                      | Some (v, r3) =>
                          let m := (String.string_of_list_ascii k, v) in
                          match skip_ws r3 with
                          | d :: r4 =>
                              if bool_decide (code d = 44) then parse_members f r4 (acc ++ [m])
                              else if bool_decide (code d = 125) then Some (JObj (acc ++ [m]), r4)
                              else None
                          | [] => None
                          end
                      end
                    else None
                | [] => None
                end
            end
          else None
      | [] => None
      end
  end.

(** A whole document: one value and nothing but whitespace after it. *)
Definition parse_json (s : string) : option json :=
  let l := String.list_ascii_of_string s in
  match parse_value (S (length l)) l with
  | Some (j, r) => match skip_ws r with [] => Some j | _ => None end
  | None => None
  end.

(** ** The printer *)

Definition hex_digit (n : nat) : Ascii.ascii :=
  if bool_decide (n < 10) then chr (48 + n) else chr (87 + n).

Definition escape_char (c : Ascii.ascii) : bytes :=
  let n := code c in
  if bool_decide (n = 34) then [chr 92; chr 34]
  else if bool_decide (n = 92) then [chr 92; chr 92]
  else if bool_decide (n = 8) then [chr 92; chr 98]
  else if bool_decide (n = 12) then [chr 92; chr 102]
  else if bool_decide (n = 10) then [chr 92; chr 110]
  else if bool_decide (n = 13) then [chr 92; chr 114]
  else if bool_decide (n = 9) then [chr 92; chr 116]
  else if bool_decide (n < 32) then
    [chr 92; chr 117; chr 48; chr 48; hex_digit (n / 16); hex_digit (n mod 16)]
  else [c].

Definition print_string (s : string) : bytes :=
  chr 34 :: concat (escape_char <$> String.list_ascii_of_string s) ++ [chr 34].

(** [x1 sep x2 sep ... xn]. *)
Definition join_with (sep : bytes) (xs : list bytes) : bytes :=
  match xs with
  | [] => []
  | x :: xs' => x ++ concat ((λ y, sep ++ y) <$> xs')
  end.

Fixpoint print_json (j : json) : bytes :=
  match j with
  | JNull => lit "null"
  | JBool true => lit "true"
  | JBool false => lit "false"
  | JNum lx => String.list_ascii_of_string lx
  | JStr s => print_string s
  | JArr xs => chr 91 :: join_with [chr 44] (map print_json xs) ++ [chr 93]
  | JObj ms =>
      chr 123 :: join_with [chr 44] (map (λ m, print_string m.1 ++ chr 58 :: print_json m.2) ms)
        ++ [chr 125]
  end.

Definition json_dumps (j : json) : string := String.string_of_list_ascii (print_json j).

(** The fuel a value needs: one unit per value and one per item or
    member. *)
Fixpoint json_size (j : json) : nat :=
  match j with
  | JArr xs => 1 + sum_list_with (λ x, 1 + json_size x) xs
  | JObj ms => 1 + sum_list_with (λ m, 1 + json_size m.2) ms
  | _ => 1
  end.

(** Every number lexeme follows the number grammar. *)
Fixpoint json_wf (j : json) : bool :=
  match j with
  | JNum lx => valid_number (String.list_ascii_of_string lx)
  | JArr xs => forallb json_wf xs
  | JObj ms => forallb (λ m, json_wf m.2) ms
  | _ => true
  end.

(** Induction on values through their items and members. *)
Section json_ind.
Context (P : json → Prop) (HNull : P JNull) (HBool : ∀ b, P (JBool b))
  (HNum : ∀ lx, P (JNum lx)) (HStr : ∀ s, P (JStr s))
  (HArr : ∀ xs, Forall P xs → P (JArr xs))
  (HObj : ∀ ms, Forall (λ m, P m.2) ms → P (JObj ms)).

Fixpoint json_ind' (j : json) : P j :=
  match j with
  | JNull => HNull
  | JBool b => HBool b
  | JNum lx => HNum lx
  | JStr s => HStr s
  | JArr xs =>
      HArr xs ((fix go (xs : list json) : Forall P xs :=
                  match xs with
                  | [] => Forall_nil_2 _
                  | x :: xs' => Forall_cons_2 _ _ _ (json_ind' x) (go xs')
                  end) xs)
  | JObj ms =>
      HObj ms ((fix go (ms : list (string * json)) : Forall (λ m, P m.2) ms :=
                  match ms with
                  | [] => Forall_nil_2 _
                  | m :: ms' => Forall_cons_2 _ _ _ (json_ind' m.2) (go ms')
                  end) ms)
  end.
End json_ind.

(** ** Lemmas *)

Lemma skip_ws_cons c l : is_json_ws c = false → skip_ws (c :: l) = c :: l.
Proof. simpl. by intros ->. Qed.

Lemma span_spec p l a b :
  span p l = (a, b) → l = a ++ b ∧ Forall (λ c, p c = true) a.
Proof.
  revert a b. induction l as [|c l IH]; intros a b; simpl; [by intros [= <- <-]|].
  destruct (p c) eqn:Hc; [|by intros [= <- <-]].
  destruct (span p l) as [a' b'] eqn:E. intros [= <- <-].
  destruct (IH _ _ eq_refl) as [-> ?]. auto.
Qed.

Lemma span_app p a b :
  Forall (λ c, p c = true) a → head_not p b → span p (a ++ b) = (a, b).
Proof.
  induction 1 as [|c a Hc _ IH]; intros Hb; simpl.
  - destruct b as [|c b]; simpl in *; [done|]. by rewrite Hb.
  - by rewrite Hc, IH.
Qed.

(** Every escape decodes to the byte it escapes. *)
Lemma parse_chars_escape_char c l :
  parse_chars (escape_char c ++ l) = prepend [c] (parse_chars l).
Proof. destruct c as [[][][][][][][][]]; reflexivity. Qed.

Lemma parse_chars_escape s rest :
  parse_chars (concat (escape_char <$> s) ++ chr 34 :: rest) = Some (s, rest).
Proof.
  induction s as [|c s IH]; [reflexivity|].
  rewrite fmap_cons. cbn [concat]. by rewrite <-app_assoc, parse_chars_escape_char, IH.
Qed.

Lemma number_char_digit c : is_digit c = true → is_number_char c = true.
Proof. unfold is_number_char. by intros ->. Qed.

Lemma number_char_code c : code c ∈ [45; 43; 46; 101; 69] → is_number_char c = true.
Proof. intros H. unfold is_number_char. rewrite (bool_decide_eq_true_2 _ H). apply orb_true_r. Qed.

Lemma Forall_digits_number l :
  Forall (λ c, is_digit c = true) l → Forall (λ c, is_number_char c = true) l.
Proof. intros H. eapply Forall_impl; [exact H|]. apply number_char_digit. Qed.

Lemma forallb_digits l : forallb is_digit l = true → Forall (λ c, is_number_char c = true) l.
Proof.
  induction l as [|c l IH]; simpl; [done|].
  intros [Hc Hl]%andb_prop. constructor; [by apply number_char_digit|auto].
Qed.

Lemma valid_exp_chars r : valid_exp r = true → Forall (λ c, is_number_char c = true) r.
Proof.
  destruct r as [|e r]; simpl; [done|].
  intros [He [_ Hd]%andb_prop]%andb_prop. apply bool_decide_eq_true in He.
  constructor; [apply number_char_code; rewrite !elem_of_cons; lia|].
  destruct r as [|s r]; [done|].
  case_bool_decide as Hs; [constructor; [apply number_char_code; rewrite !elem_of_cons; lia|]|];
    by apply forallb_digits.
Qed.

Lemma valid_unsigned_chars l :
  valid_unsigned l = true → Forall (λ c, is_number_char c = true) l.
Proof.
  unfold valid_unsigned. destruct (span is_digit l) as [ip r1] eqn:Hs.
  apply span_spec in Hs as [-> Hip%Forall_digits_number].
  intros [_ Hr]%andb_prop. apply Forall_app; split; [done|].
  destruct r1 as [|d r2]; [done|].
  case_bool_decide as Hd; [|by apply valid_exp_chars].
  destruct (span is_digit r2) as [fp r3] eqn:Hs.
  apply span_spec in Hs as [-> Hfp%Forall_digits_number].
  apply andb_prop in Hr as [_ Hr%valid_exp_chars].
  constructor; [apply number_char_code; rewrite !elem_of_cons; lia|]. by apply Forall_app.
Qed.

Lemma valid_unsigned_head l :
  valid_unsigned l = true → ∃ c t, l = c :: t ∧ is_digit c = true.
Proof.
  unfold valid_unsigned. destruct l as [|c t]; [done|]. simpl.
  destruct (is_digit c) eqn:Hc; [eauto|]. done.
Qed.

Lemma valid_number_chars lx :
  valid_number lx = true → Forall (λ c, is_number_char c = true) lx.
Proof.
  destruct lx as [|c r]; simpl; [done|].
  case_bool_decide as Hc; [|apply valid_unsigned_chars].
  intros Hr. constructor; [apply number_char_code; rewrite !elem_of_cons; lia|]. by apply valid_unsigned_chars.
Qed.

(** A number starts with a minus or a digit. *)
Lemma valid_number_head lx :
  valid_number lx = true → ∃ c t, lx = c :: t ∧ (code c = 45 ∨ is_digit c = true).
Proof.
  destruct lx as [|c r]; simpl; [done|].
  case_bool_decide as Hc; [eauto|].
  intros (d & t & [= -> ->] & Hd)%valid_unsigned_head. eauto.
Qed.

Lemma number_head_code c : code c = 45 ∨ is_digit c = true → code c = 45 ∨ 48 ≤ code c ≤ 57.
Proof. unfold is_digit. rewrite bool_decide_eq_true. done. Qed.

Lemma number_head_not_ws c : code c = 45 ∨ is_digit c = true → is_json_ws c = false.
Proof. intros Hc%number_head_code. unfold is_json_ws. apply bool_decide_eq_false_2. lia. Qed.

(** A printed value starts with a byte that is not whitespace and does
    not close an array. *)
Lemma print_head j :
  json_wf j = true → ∃ c t, print_json j = c :: t ∧ is_json_ws c = false ∧ code c ≠ 93.
Proof.
  destruct j as [| [] | lx | s | xs | ms]; simpl; try by eauto.
  intros (c & t & Hlx & Hc)%valid_number_head. rewrite Hlx. exists c, t.
  split_and!; [done|by apply number_head_not_ws|apply number_head_code in Hc; lia].
Qed.

Lemma skip_ws_print j rest :
  json_wf j = true → skip_ws (print_json j ++ rest) = print_json j ++ rest.
Proof. intros (c & t & -> & Hc & _)%print_head. by apply skip_ws_cons. Qed.

Lemma parse_value_number f lx rest :
  valid_number lx = true → head_not is_number_char rest →
  parse_value (S f) (lx ++ rest) = Some (JNum (String.string_of_list_ascii lx), rest).
Proof.
  intros Hv Hr. pose proof (valid_number_chars _ Hv) as Hch.
  destruct (valid_number_head _ Hv) as (c & t & -> & Hc).
  cbn [parse_value]. rewrite <-app_comm_cons, skip_ws_cons by by apply number_head_not_ws.
  apply number_head_code in Hc as Hc'.
  rewrite !bool_decide_eq_false_2 by lia. cbv zeta.
  replace (bool_decide (code c = 45) || is_digit c) with true
    by (destruct Hc as [Hc|Hc]; [by rewrite bool_decide_eq_true_2|by rewrite Hc, orb_true_r]).
  rewrite app_comm_cons, span_app by done. by rewrite Hv.
Qed.

Lemma print_string_cons s rest :
  print_string s ++ rest =
  chr 34 :: (concat (escape_char <$> String.list_ascii_of_string s) ++ chr 34 :: rest).
Proof. unfold print_string. simpl. by rewrite <-app_assoc. Qed.

Lemma join_with_cons2 {A} sep x (f : A → bytes) y ys :
  join_with sep (x :: map f (y :: ys)) = x ++ sep ++ join_with sep (map f (y :: ys)).
Proof. simpl. by rewrite !app_assoc. Qed.

Lemma join_with_one sep x : join_with sep [x] = x.
Proof. apply app_nil_r. Qed.

(** The parser reads back the items of a printed array. *)
Lemma parse_items_print xs : ∀ x acc f rest,
  Forall (λ y, json_wf y = true ∧ ∀ fuel rest, json_size y < fuel →
    head_not is_number_char rest → parse_value fuel (print_json y ++ rest) = Some (y, rest)) (x :: xs) →
  sum_list_with (λ y, 1 + json_size y) (x :: xs) < f →
  parse_items f (join_with [chr 44] (map print_json (x :: xs)) ++ chr 93 :: rest) acc =
  Some (JArr (acc ++ x :: xs), rest).
Proof.
  induction xs as [|y ys IH]; intros x acc f rest Hall Hf;
    destruct f as [|f]; [lia| |lia|]; apply Forall_cons in Hall as [[_ Hx] Hall];
    cbn [parse_items]; simpl in Hf.
  - rewrite map_cons, join_with_one, Hx by (done || lia). reflexivity.
  - change (map print_json (x :: y :: ys)) with (print_json x :: map print_json (y :: ys)).
    rewrite join_with_cons2, <-!app_assoc.
    set (L := join_with _ _ ++ _). rewrite Hx by (done || lia). simpl. subst L.
    rewrite IH by (done || simpl; lia). by rewrite <-app_assoc.
Qed.

(** The parser reads back the members of a printed object. *)
Lemma parse_members_print ms : ∀ m acc f rest,
  Forall (λ m : string * json, json_wf m.2 = true ∧ ∀ fuel rest, json_size m.2 < fuel →
    head_not is_number_char rest → parse_value fuel (print_json m.2 ++ rest) = Some (m.2, rest)) (m :: ms) →
  sum_list_with (λ m, 1 + json_size m.2) (m :: ms) < f →
  parse_members f
    (join_with [chr 44] (map (λ m, print_string m.1 ++ chr 58 :: print_json m.2) (m :: ms)) ++ chr 125 :: rest) acc =
  Some (JObj (acc ++ m :: ms), rest).
Proof.
  induction ms as [|m' ms IH]; intros [k v] acc f rest Hall Hf;
    destruct f as [|f]; [lia| |lia|]; apply Forall_cons in Hall as [[_ Hv] Hall];
    simpl in Hf, Hv.
  - rewrite map_cons, join_with_one, <-app_assoc, print_string_cons.
    set (E := concat _). set (R := chr 125 :: rest). set (P := print_json v).
    simpl. subst E. rewrite parse_chars_escape. simpl. subst P.
    rewrite Hv by (done || lia). simpl. by rewrite String.string_of_list_ascii_of_string.
  - change (map ?g ((k, v) :: m' :: ms)) with (g (k, v) :: map g (m' :: ms)).
    rewrite join_with_cons2, <-!app_assoc. cbn [fst snd]. rewrite print_string_cons.
    set (E := concat _). set (L := join_with _ _ ++ _). set (P := print_json v).
    simpl. subst E. rewrite parse_chars_escape. simpl. subst P.
    rewrite Hv by (done || lia). simpl. subst L.
    rewrite IH by (done || simpl; lia).
    by rewrite <-app_assoc, String.string_of_list_ascii_of_string.
Qed.

Lemma parse_value_open f l :
  parse_value (S f) (chr 91 :: l) =
  match skip_ws l with
  | d :: r' => if bool_decide (code d = 93) then Some (JArr [], r') else parse_items f l []
  | [] => None
  end.
Proof. reflexivity. Qed.

Lemma parse_value_brace f l :
  parse_value (S f) (chr 123 :: l) =
  match skip_ws l with
  | d :: r' => if bool_decide (code d = 125) then Some (JObj [], r') else parse_members f l []
  | [] => None
  end.
Proof. reflexivity. Qed.

Lemma join_with_map_cons {A} sep (g : A → bytes) x xs : ∃ t, join_with sep (map g (x :: xs)) = g x ++ t.
Proof. by eexists. Qed.

(** The parser reads back every printed value, given fuel beyond its size,
    when the text after it does not continue a number. *)
Lemma parse_print j : ∀ fuel rest,
  json_wf j = true → json_size j < fuel → head_not is_number_char rest →
  parse_value fuel (print_json j ++ rest) = Some (j, rest).
Proof.
  induction j as [| [] | lx | s | xs IH | ms IH] using json_ind'; intros fuel rest Hwf Hf Hr;
    destruct fuel as [|f]; simpl in Hf; try lia; try reflexivity.
  - simpl in Hwf. cbn [print_json]. rewrite (parse_value_number f _ rest Hwf Hr).
    by rewrite String.string_of_list_ascii_of_string.
  - cbn [print_json]. rewrite print_string_cons. set (E := concat _). simpl. subst E.
    rewrite parse_chars_escape. simpl. by rewrite String.string_of_list_ascii_of_string.
  - destruct xs as [|x xs]; [reflexivity|]. change (forallb json_wf (x :: xs) = true) in Hwf.
    apply forallb_Forall in Hwf as Hall.
    destruct (print_head x) as (c & t & Hp & Hc & Hc93); [by inversion Hall|].
    change (print_json (JArr (x :: xs)) ++ rest) with
      (chr 91 :: ((join_with [chr 44] (map print_json (x :: xs)) ++ [chr 93]) ++ rest)).
    rewrite parse_value_open, <-app_assoc.
    destruct (join_with_map_cons [chr 44] print_json x xs) as [t' Ht'].
    rewrite Ht', <-app_assoc, skip_ws_print by (by inversion Hall).
    assert (Et : ∃ t'', print_json x ++ t' ++ [chr 93] ++ rest = c :: t'') by (rewrite Hp; by eexists).
    destruct Et as [t'' Et].
    rewrite Et. cbv beta iota. rewrite bool_decide_eq_false_2 by done. cbv beta iota.
    rewrite <-Et, app_assoc, <-Ht'. apply parse_items_print; [|simpl in *; lia].
    apply Forall_and_intro; [done|]. rewrite Forall_forall in IH, Hall |- *. intros y Hy ????. apply IH; auto.
  - destruct ms as [|[k v] ms]; [reflexivity|].
    change (forallb (λ m, json_wf m.2) ((k, v) :: ms) = true) in Hwf.
    apply forallb_Forall in Hwf as Hall.
    set (pm := λ m : string * json, print_string m.1 ++ chr 58 :: print_json m.2).
    change (print_json (JObj ((k, v) :: ms)) ++ rest) with
      (chr 123 :: ((join_with [chr 44] (map pm ((k, v) :: ms)) ++ [chr 125]) ++ rest)).
    rewrite parse_value_brace, <-app_assoc.
    assert (Et : ∃ t, join_with [chr 44] (map pm ((k, v) :: ms)) ++ [chr 125] ++ rest = chr 34 :: t)
      by (eexists; reflexivity).
    destruct Et as [t Et]. rewrite Et, skip_ws_cons by reflexivity. cbv beta iota.
    rewrite bool_decide_eq_false_2 by (cbv; lia). cbv beta iota.
    rewrite <-Et. apply parse_members_print; [|simpl in *; lia].
    apply Forall_and_intro; [done|]. rewrite Forall_forall in IH, Hall |- *. intros y Hy ????. apply IH; auto.
Qed.

Lemma concat_sep_length sep (ys : list bytes) :
  length (concat ((λ z, sep ++ z) <$> ys)) = sum_list_with (λ y, length sep + length y) ys.
Proof. induction ys as [|z ys IH]; [done|]. rewrite fmap_cons. simpl. rewrite !length_app, IH. lia. Qed.

Lemma join_with_length c (ys : list bytes) :
  sum_list_with (λ y, 1 + length y) ys ≤ S (length (join_with [c] ys)).
Proof.
  destruct ys as [|y ys]; simpl; [lia|]. rewrite length_app.
  pose proof (concat_sep_length [c] ys) as H. simpl in H. rewrite H. lia.
Qed.

(** A printed value is at least as long as its size. *)
Lemma json_size_print j : json_wf j = true → json_size j ≤ length (print_json j).
Proof.
  induction j as [| [] | lx | s | xs IH | ms IH] using json_ind'; intros Hwf; simpl; try lia.
  - simpl in Hwf. destruct (valid_number_head _ Hwf) as (c & t & -> & _). simpl. lia.
  - apply forallb_Forall in Hwf.
    rewrite length_app. simpl.
    pose proof (join_with_length (chr 44) (map print_json xs)) as Hj.
    rewrite sum_list_with_map in Hj.
    enough (sum_list_with (λ x, 1 + json_size x) xs ≤ sum_list_with (λ x, 1 + length (print_json x)) xs) by (simpl in *; lia).
    apply sum_list_with_mono. rewrite Forall_forall in IH, Hwf |- *. intros x Hx. specialize (IH x Hx (Hwf x Hx)). cbv beta. lia.
  - apply forallb_Forall in Hwf.
    rewrite length_app. simpl.
    pose proof (join_with_length (chr 44) (map (λ m, print_string m.1 ++ chr 58 :: print_json m.2) ms)) as Hj.
    rewrite sum_list_with_map in Hj.
    enough (sum_list_with (λ m, 1 + json_size m.2) ms ≤
      sum_list_with (λ m, 1 + length (print_string m.1 ++ chr 58 :: print_json m.2)) ms) by (simpl in *; lia).
    apply sum_list_with_mono. rewrite Forall_forall in IH, Hwf |- *. intros m Hm.
    specialize (IH m Hm (Hwf m Hm)). cbv beta. rewrite length_app. simpl. lia.
Qed.

(** The JSON text of a well-formed value parses back to it. *)
Lemma parse_json_dumps j : json_wf j = true → parse_json (json_dumps j) = Some j.
Proof.
  intros Hwf. unfold parse_json, json_dumps. rewrite String.list_ascii_of_string_of_list_ascii.
  pose proof (parse_print j (S (length (print_json j))) [] Hwf) as H. rewrite app_nil_r in H.
  rewrite H; [done| |done]. pose proof (json_size_print j Hwf). lia.
Qed.
