(* ===== verification/Responses.v ===== *)
(** * The structured output of the docs agent

    [src/models/responses.py] declares the pydantic model [DocsResponse]
    with the fields [answer: str] and [sources: List[str]]; the docs agent
    passes it as its [response_format].  The framework checks the model's
    reply with [DocsResponse.model_validate_json] and encodes a value with
    [model_dump_json].  Both are pydantic's, modelled from its documented
    behaviour in JSON mode:
    - the input must be an object; a key given twice keeps its last value;
      keys other than the two fields are ignored;
    - [answer] must be a JSON string and [sources] an array of strings, no
      number or other value is coerced;
    - every failing field and every failing item is reported, each error
      with its type and its location ([("sources", 2)] for the third
      source), in field order;
    - text that is not JSON fails with the single error [json_invalid]. *)

From S2P Require Import Prelude Json.

(** ** Definitions *)

(** [class DocsResponse(BaseModel): answer: str; sources: List[str]]. *)
Record DocsResponse := {
  answer : string;
  sources : list string;
}.

Inductive LocItem :=
| LocField (field : string)
| LocIndex (index : nat).

(** An entry of [ValidationError.errors()]: its [type] and [loc]. *)
Record ErrorDetails := {
  err_type : string;
  err_loc : list LocItem;
}.

Definition error_at (ty : string) (loc : list LocItem) : ErrorDetails :=
  {| err_type := ty; err_loc := loc |}.

Abbreviation Validated := (result (list ErrorDetails)).

(** The value of a member; the last one when the key repeats. *)
Definition member (k : string) (ms : list (string * json)) : option json :=
  snd <$> List.find (λ m, bool_decide (m.1 = k)) (rev ms).

(** Validate two parts and report the errors of both. *)
Definition both {A B} (ra : Validated A) (rb : Validated B) : Validated (A * B) :=
  match ra, rb with
  | Ok a, Ok b => Ok (a, b)
  | Ok _, Err eb => Err eb
  | Err ea, Ok _ => Err ea
  | Err ea, Err eb => Err (ea ++ eb)
  end.

(** A [str] field or item in JSON mode. *)
Definition validate_str (loc : list LocItem) (v : option json) : Validated string :=
  match v with
  | None => Err [error_at "missing" loc]
  | Some (JStr s) => Ok s
  | Some _ => Err [error_at "string_type" loc]
  end.

(** The items of [sources] from index [i] on. *)
Fixpoint validate_items (i : nat) (xs : list json) : Validated (list string) :=
  match xs with
  | [] => Ok []
  | x :: xs' =>
      (λ '(s, ss), s :: ss) <$>
        both (validate_str [LocField "sources"; LocIndex i] (Some x)) (validate_items (S i) xs')
  end.

(** A [List[str]] field in JSON mode. *)
Definition validate_list_str (v : option json) : Validated (list string) :=
  match v with
  | None => Err [error_at "missing" [LocField "sources"]]
  | Some (JArr xs) => validate_items 0 xs
  | Some _ => Err [error_at "list_type" [LocField "sources"]]
  end.

(** [DocsResponse.model_validate] on a parsed JSON value. *)
Definition validate_docs_response (j : json) : Validated DocsResponse :=
  match j with
  | JObj ms =>
      (λ '(a, s), {| answer := a; sources := s |}) <$>
        both (validate_str [LocField "answer"] (member "answer" ms))
             (validate_list_str (member "sources" ms))
  | _ => Err [error_at "model_type" []]
  end.

(** [DocsResponse.model_validate_json(text)]. *)
Definition model_validate_json (text : string) : Validated DocsResponse :=
  match parse_json text with
  | None => Err [error_at "json_invalid" []]
  | Some j => validate_docs_response j
  end.

(** The JSON value of a response, fields in declaration order. *)
Definition docs_to_json (r : DocsResponse) : json :=
  JObj [("answer", JStr (answer r)); ("sources", JArr (JStr <$> sources r))].

(** [DocsResponse.model_dump_json()]. *)
Definition model_dump_json (r : DocsResponse) : string := json_dumps (docs_to_json r).

(** The errors [validate_items] must report: one [string_type] error for
    each item that is not a string, at its index. *)
Definition item_errors (i : nat) (xs : list json) : list ErrorDetails :=
  concat (imap (λ k x, match x with
                       | JStr _ => []
                       | _ => [error_at "string_type" [LocField "sources"; LocIndex (i + k)]]
                       end) xs).

(** The texts of the string items. *)
Definition jstrs (xs : list json) : list string :=
  omap (λ x, match x with JStr s => Some s | _ => None end) xs.

(** ** Lemmas *)

Lemma both_Ok {A B} (ra : Validated A) (rb : Validated B) a b :
  both ra rb = Ok (a, b) ↔ ra = Ok a ∧ rb = Ok b.
Proof.
  destruct ra, rb; simpl; split.
  1: by intros [= -> ->].
  1: by intros [[= ->] [= ->]].
  all: intros H; first [discriminate H | destruct H; congruence].
Qed.

Lemma find_app {A} (p : A → bool) l1 l2 :
  List.find p (l1 ++ l2) = match List.find p l1 with Some x => Some x | None => List.find p l2 end.
Proof. induction l1 as [|x l1 IH]; simpl; [done|]. by destruct (p x). Qed.

(** A member of another key does not change what [member] finds. *)
Lemma member_other k k' v ms1 ms2 :
  k ≠ k' → member k' (ms1 ++ (k, v) :: ms2) = member k' (ms1 ++ ms2).
Proof.
  intros Hk. unfold member. rewrite !rev_app_distr, !find_app. cbn [rev]. rewrite find_app. simpl.
  rewrite bool_decide_eq_false_2 by done. by destruct (List.find _ (rev ms2)).
Qed.

Lemma item_errors_cons i x xs :
  item_errors i (x :: xs) =
  match x with JStr _ => [] | _ => [error_at "string_type" [LocField "sources"; LocIndex i]] end
    ++ item_errors (S i) xs.
Proof.
  unfold item_errors. rewrite imap_cons. cbn [concat]. rewrite Nat.add_0_r. f_equal.
  f_equal. apply imap_ext. intros k y _. destruct y; simpl; try done; repeat f_equal; lia.
Qed.

(** [validate_items] reports exactly the items that are not strings. *)
Lemma validate_items_errors i xs :
  validate_items i xs = match item_errors i xs with [] => Ok (jstrs xs) | es => Err es end.
Proof.
  revert i. induction xs as [|x xs IH]; intros i; [done|].
  cbn [validate_items]. rewrite IH, item_errors_cons.
  destruct x; simpl; destruct (item_errors (S i) xs); simpl; done.
Qed.

Lemma validate_items_strs i ss : validate_items i (JStr <$> ss) = Ok ss.
Proof. revert i. induction ss as [|s ss IH]; intros i; [done|]. simpl. by rewrite IH. Qed.

Lemma validate_items_Ok i xs ss : validate_items i xs = Ok ss → xs = JStr <$> ss.
Proof.
  revert i ss. induction xs as [|x xs IH]; intros i ss; simpl; [by intros [= <-]|].
  destruct (both _ _) as [[s ss']|] eqn:E; simpl; [|done]. intros [= <-].
  apply both_Ok in E as [Hx Hxs]. destruct x; simplify_eq/=. by rewrite (IH _ _ Hxs).
Qed.

Lemma docs_to_json_wf r : json_wf (docs_to_json r) = true.
Proof. simpl. induction (sources r); simpl; auto. Qed.

(** C11: encoding a [DocsResponse] with [model_dump_json] and validating the
    text with [model_validate_json] gives the same response back: the docs
    agent's structured output survives the trip through its JSON text. *)
Theorem model_validate_dump r : model_validate_json (model_dump_json r) = Ok r.
Proof.
  unfold model_validate_json, model_dump_json. rewrite parse_json_dumps by apply docs_to_json_wf.
  simpl. rewrite validate_items_strs. by destruct r.
Qed.

(** C20: a JSON value validates as the [DocsResponse] [r] exactly when it is
    an object whose (last) [answer] member is the string [answer r] and
    whose (last) [sources] member is the array of the strings
    [sources r]. *)
Theorem validate_docs_response_Ok j r :
  validate_docs_response j = Ok r ↔
  ∃ ms, j = JObj ms ∧ member "answer" ms = Some (JStr (answer r)) ∧
    member "sources" ms = Some (JArr (JStr <$> sources r)).
Proof.
  split.
  - destruct j as [| | | | |ms]; simpl; try done.
    destruct (both _ _) as [[a ss]|] eqn:E; simpl; [|done]. intros [= <-].
    apply both_Ok in E as [Ha Hs]. exists ms. split; [done|]. simpl.
    split.
    + destruct (member "answer" ms) as [[]|]; by simplify_eq/=.
    + destruct (member "sources" ms) as [[]|]; simplify_eq/=; try done.
      by rewrite (validate_items_Ok _ _ _ Hs).
  - intros (ms & -> & Ha & Hs). simpl. rewrite Ha, Hs. simpl.
    rewrite validate_items_strs. by destruct r.
Qed.

(** C25: when [answer] is a string and [sources] an array, validation
    succeeds exactly when every source is a string, and otherwise fails
    with one [string_type] error per non-string source, located at its
    index, in order. *)
Theorem validate_sources_errors ms a xs :
  member "answer" ms = Some (JStr a) → member "sources" ms = Some (JArr xs) →
  validate_docs_response (JObj ms) =
  match item_errors 0 xs with
  | [] => Ok {| answer := a; sources := jstrs xs |}
  | es => Err es
  end.
Proof.
  intros Ha Hs. simpl. rewrite Ha, Hs. simpl. rewrite validate_items_errors.
  by destruct (item_errors 0 xs).
Qed.

(** C29: keys other than [answer] and [sources] are ignored: adding such a
    member anywhere in an object does not change its validation. *)
Theorem validate_ignores_extra ms1 ms2 k v :
  k ≠ "answer" → k ≠ "sources" →
  validate_docs_response (JObj (ms1 ++ (k, v) :: ms2)) = validate_docs_response (JObj (ms1 ++ ms2)).
Proof. intros Ha Hs. simpl. by rewrite !member_other by done. Qed.

(** ** Witnesses *)

Lemma validate_sources_errors_witness :
  validate_docs_response (JObj [("answer", JStr "a"); ("sources", JArr [JStr "u"; JNull])])
    = Err [error_at "string_type" [LocField "sources"; LocIndex 1]].
Proof.
  exact (validate_sources_errors [("answer", JStr "a"); ("sources", JArr [JStr "u"; JNull])]
           "a" [JStr "u"; JNull] eq_refl eq_refl).
Defined.

Lemma validate_ignores_extra_witness :
  validate_docs_response (JObj ([("answer", JStr "a")] ++ ("x", JNull) :: [("sources", JArr [])]))
    = validate_docs_response (JObj ([("answer", JStr "a")] ++ [("sources", JArr [])])).
Proof. apply validate_ignores_extra; discriminate. Defined.
