(* ===== verification/Agents.v ===== *)
(** * The three chat agents and the MCP tool binding

    Models [src/agents/rewrite.py], [src/src/docs-agent/agents/docs.py]
    and [src/src/docs-agent/agents/summarize.py]: the constructor calls of
    [ChatAgent], [MCPStreamableHTTPTool] and [AzureOpenAIResponsesClient]
    become records, and each [create_*_agent] becomes a function on them.
    The tool allow-list check ([tool_allowed], [agent_tool_for]) is how the
    framework restricts an agent to the operations its tools allow. *)

From S2P Require Import Prelude.

(** ** Data: the framework objects the code constructs *)

(** [credential=DefaultAzureCredential()] or [api_key=api_key]. *)
Inductive Credential :=
| ApiKey (key : string)
| DefaultAzureCredential.

(** [AzureOpenAIResponsesClient(endpoint=..., deployment_name=..., ...)]; the
    deployment comes from [os.getenv] and may be [None]. *)
Record AzureOpenAIResponsesClient := {
  client_endpoint : string;
  client_deployment_name : option string;
  client_credential : Credential;
}.

(** [MCPStreamableHTTPTool(name=..., url=..., allowed_tools=[...])]. *)
Record MCPStreamableHTTPTool := {
  tool_name : string;
  tool_url : string;
  allowed_tools : list string;
}.

(** The only [response_format] the code passes is the pydantic model
    [DocsResponse]. *)
Inductive ResponseFormat := DocsResponseFormat.

(** [ChatAgent(chat_client=..., instructions=..., name=..., tools=...,
    response_format=...)]; [tools] is normalised to a list. *)
Record ChatAgent := {
  chat_client : AzureOpenAIResponsesClient;
  instructions : string;
  agent_name : string;
  agent_tools : list MCPStreamableHTTPTool;
  response_format : option ResponseFormat;
}.

(** Decidable equality of the framework objects, so that [decide] compares
    agents and tools (the runner keys its executors by name, the CLI hands
    the very tool object back to the caller). *)
#[export] Instance Credential_eq_dec : EqDecision Credential.
Proof. solve_decision. Defined.
#[export] Instance AzureOpenAIResponsesClient_eq_dec : EqDecision AzureOpenAIResponsesClient.
Proof. solve_decision. Defined.
#[export] Instance MCPStreamableHTTPTool_eq_dec : EqDecision MCPStreamableHTTPTool.
Proof. solve_decision. Defined.
#[export] Instance ResponseFormat_eq_dec : EqDecision ResponseFormat.
Proof. solve_decision. Defined.
#[export] Instance ChatAgent_eq_dec : EqDecision ChatAgent.
Proof. solve_decision. Defined.

(** ** The constructors of [src/agents] *)

Definition rewrite_instructions : string :=
  "You are an expert editor. Rewrite the user's input to be precise, " +:+
  "correcting grammar and spelling. Optimize it for a documentation " +:+
  "search query while preserving the original intent.".

Definition create_rewrite_agent (c : AzureOpenAIResponsesClient) : ChatAgent := {|
  chat_client := c;
  instructions := rewrite_instructions;
  agent_name := "rewrite-agent";
  agent_tools := [];
  response_format := None;
|}.

Definition docs_instructions : string :=
  "You are an expert assistant that answers questions about " +:+
  "Microsoft products and services. Use the Microsoft Learn MCP " +:+
  "server to ground your answers in official Microsoft " +:+
  "documentation whenever possible.".

(** Returns the agent and the tool object it holds: the same tool value is
    handed to the caller, which later opens and closes its connection. *)
Definition create_docs_agent (c : AzureOpenAIResponsesClient)
    : ChatAgent * MCPStreamableHTTPTool :=
  let mcp_tool := {|
    tool_name := "Microsoft Learn MCP";
    tool_url := "https://learn.microsoft.com/api/mcp";
    allowed_tools := ["microsoft_docs_search"];
  |} in
  let agent := {|
    chat_client := c;
    instructions := docs_instructions;
    agent_name := "microsoft-docs-agent";
    agent_tools := [mcp_tool];
    response_format := Some DocsResponseFormat;
  |} in
  (agent, mcp_tool).

Definition summarize_instructions : string :=
  "You are a helpful assistant that summarizes the provided text " +:+
  "into a concise bulleted list. Do not lose important information. " +:+
  "Always output your response in Markdown format.".

Definition create_summarize_agent (c : AzureOpenAIResponsesClient) : ChatAgent := {|
  chat_client := c;
  instructions := summarize_instructions;
  agent_name := "summarize-agent";
  agent_tools := [];
  response_format := None;
|}.

(** ** Tool permission: the allow-list of an MCP tool *)

Definition tool_allowed (t : MCPStreamableHTTPTool) (op : string) : bool :=
  bool_decide (op ∈ allowed_tools t).

(** The first tool of the agent that exposes operation [op], if any; a call
    of an operation no tool exposes is refused. *)
Definition agent_tool_for (a : ChatAgent) (op : string) : option MCPStreamableHTTPTool :=
  List.find (λ t, tool_allowed t op) (agent_tools a).

(** A client as [src/main.py] builds it from a static key; the concrete
    examples of the development run on it. *)
Definition example_client : AzureOpenAIResponsesClient := {|
  client_endpoint := "https://example.openai.azure.com/";
  client_deployment_name := Some "gpt-4.1";
  client_credential := ApiKey "key";
|}.

(** ** The allow-list *)

Lemma agent_tool_for_Some a op t :
  agent_tool_for a op = Some t → t ∈ agent_tools a ∧ op ∈ allowed_tools t.
Proof.
  unfold agent_tool_for, tool_allowed. intros (Hin & Hok)%List.find_some.
  split; [by apply list_elem_of_In|by apply bool_decide_eq_true in Hok].
Qed.

Lemma agent_tool_for_None a op :
  agent_tool_for a op = None ↔ ∀ t, t ∈ agent_tools a → op ∉ allowed_tools t.
Proof.
  unfold agent_tool_for, tool_allowed. split.
  - intros Hn t Ht Hop. apply list_elem_of_In in Ht.
    pose proof (List.find_none _ _ Hn t Ht) as H. simpl in H. by rewrite bool_decide_eq_true_2 in H.
  - intros H. destruct (List.find _ _) as [t|] eqn:Hf; [|done].
    apply List.find_some in Hf as [Hin Hok%bool_decide_eq_true]. apply list_elem_of_In in Hin.
    by destruct (H t Hin).
Qed.

Lemma agent_tool_for_nil a op : agent_tools a = [] → agent_tool_for a op = None.
Proof. unfold agent_tool_for. by intros ->. Qed.

(** C9: the tool permissions the constructors set up: the docs agent
    exposes exactly [microsoft_docs_search], through the very tool object
    [create_docs_agent] returns to its caller, and the rewrite and
    summarize agents expose no operation at all. *)
Theorem agent_permissions c op :
  agent_tool_for (create_docs_agent c).1 op =
    (if bool_decide (op = "microsoft_docs_search") then Some (create_docs_agent c).2 else None) ∧
  agent_tool_for (create_rewrite_agent c) op = None ∧
  agent_tool_for (create_summarize_agent c) op = None.
Proof.
  split_and!; [|by apply agent_tool_for_nil..].
  unfold agent_tool_for, tool_allowed. cbn.
  destruct (decide (op = "microsoft_docs_search")) as [->|Hop].
  - by rewrite !bool_decide_eq_true_2 by set_solver.
  - by rewrite !bool_decide_eq_false_2 by set_solver.
Qed.
