(* ===== verification/Workflow.v ===== *)
(** * The documentation workflow: builder, wiring and runner

    [create_documentation_workflow]
    ([src/src/agents-in-workflow/workflows/documentation.py]) drives the
    framework's [WorkflowBuilder]; the builder and the runner belong to the
    Agent Framework and are modelled from the spec (sections 3, 4.2, 4.3).

    - The builder state is a record: the executor table (a [gmap] from
      executor id, the agent's name, to its [AgentExecutor]), the edge list
      in insertion order and the optional start executor.  [add_agent],
      [add_edge] and [set_start_executor] wrap an agent at most once (the
      framework caches the wrapper of an agent instance) and raise a
      duplicate-id error when a different agent has the name of a
      registered executor; each call returns the new builder or the error,
      so the code's chain of calls is a chain of binds.  [build] checks the
      start executor and duplicate edges.
    - [build_linear] is the spec's straight-line builder; the code's wiring
      is an instance of it ([documentation_builder_linear]).
    - The runner delivers messages in supersteps, at most [max_iterations]
      of them after the start executor, and streams [WorkflowEvent]s. *)

From S2P Require Import Prelude Agents.

(** ** Executors and builder state *)

(** [AgentExecutor(agent, output_response=...)]: its id is the agent's name. *)
Record AgentExecutor := {
  executor_agent : ChatAgent;
  output_response : bool;
}.

Record WorkflowBuilder := {
  wb_executors : gmap string AgentExecutor;
  wb_edges : list (string * string);
  wb_start : option string;
}.

Definition WorkflowBuilder_new : WorkflowBuilder :=
  {| wb_executors := ∅; wb_edges := []; wb_start := None |}.

Inductive BuildError :=
| StartExecutorNotSet
| EdgeDuplication (source target : string)
| DuplicateExecutorId (id : string).

(** [_add_executor] on a new executor: registered under its agent's name. *)
Definition register_agent (a : ChatAgent) (out : bool) (b : WorkflowBuilder) : WorkflowBuilder :=
  {| wb_executors := <[agent_name a := {| executor_agent := a; output_response := out |}]> (wb_executors b);
     wb_edges := wb_edges b;
     wb_start := wb_start b |}.

(** [_maybe_wrap_agent] then [_add_executor]: the framework caches the
    wrapper of an agent instance (instances are compared by value here), so
    an agent seen before gets its first wrapper back, whatever
    [output_response] the later call asks for; a different agent whose name
    is already the id of a registered executor raises [ValueError]
    (duplicate executor id). *)
Definition maybe_wrap_agent (a : ChatAgent) (out : bool) (b : WorkflowBuilder)
    : result BuildError WorkflowBuilder :=
  match wb_executors b !! agent_name a with
  | Some ex => if decide (executor_agent ex = a) then Ok b else Err (DuplicateExecutorId (agent_name a))
  | None => Ok (register_agent a out b)
  end.

Definition add_agent (a : ChatAgent) (output_response : bool) (b : WorkflowBuilder)
    : result BuildError WorkflowBuilder :=
  maybe_wrap_agent a output_response b.

Definition add_edge (source target : ChatAgent) (b : WorkflowBuilder) : result BuildError WorkflowBuilder :=
  b ← maybe_wrap_agent source false b;
  b ← maybe_wrap_agent target false b;
  Ok {| wb_executors := wb_executors b;
        wb_edges := wb_edges b ++ [(agent_name source, agent_name target)];
        wb_start := wb_start b |}.

Definition set_start_executor (a : ChatAgent) (b : WorkflowBuilder) : result BuildError WorkflowBuilder :=
  b ← maybe_wrap_agent a false b;
  Ok {| wb_executors := wb_executors b;
        wb_edges := wb_edges b;
        wb_start := Some (agent_name a) |}.

(** ** Built workflows *)

Record Workflow := {
  wf_executors : gmap string AgentExecutor;
  wf_edges : list (string * string);
  wf_start : string;
}.

Fixpoint first_duplicate {A} `{EqDecision A} (l : list A) : option A :=
  match l with
  | [] => None
  | x :: l' => if bool_decide (x ∈ l') then Some x else first_duplicate l'
  end.

Definition build (b : WorkflowBuilder) : result BuildError Workflow :=
  match wb_start b with
  | None => Err StartExecutorNotSet
  | Some s =>
      match first_duplicate (wb_edges b) with
      | Some (x, y) => Err (EdgeDuplication x y)
      | None => Ok {| wf_executors := wb_executors b; wf_edges := wb_edges b; wf_start := s |}
      end
  end.

(** [create_documentation_workflow]: the builder calls in the code's order;
    a call that raises ends it. *)
Definition create_documentation_workflow (rewrite_agent docs_agent summarize_agent : ChatAgent)
    : result BuildError Workflow :=
  workflow ← add_agent summarize_agent true WorkflowBuilder_new;
  workflow ← add_edge rewrite_agent docs_agent workflow;
  workflow ← add_edge docs_agent summarize_agent workflow;
  workflow ← set_start_executor rewrite_agent workflow;
  build workflow.

(** The ids of the executors marked [output_response]. *)
Definition output_nodes (w : Workflow) : list string :=
  map fst (map_to_list (filter (λ kv, output_response kv.2 = true) (wf_executors w))).

Definition successors (w : Workflow) (id : string) : list string :=
  snd <$> filter (λ e, e.1 = id) (wf_edges w).

(** ** The spec's straight-line builder (section 4.2) *)

(** Consecutive pairs of a sequence: the edges of the chain. *)
Definition chain_pairs {A} (l : list A) : list (A * A) := zip l (tail l).

(** Edges added one after the other. *)
Fixpoint add_edges (ps : list (ChatAgent * ChatAgent)) (b : WorkflowBuilder) : result BuildError WorkflowBuilder :=
  match ps with
  | [] => Ok b
  | (x, y) :: ps' => b ← add_edge x y b; add_edges ps' b
  end.

Definition build_linear (agents : list ChatAgent) : result BuildError Workflow :=
  match agents with
  | [] => build WorkflowBuilder_new
  | first :: _ =>
      b ← add_agent (default first (last agents)) true WorkflowBuilder_new;
      b ← add_edges (chain_pairs agents) b;
      b ← set_start_executor first b;
      build b
  end.

(** Names and helpers used to state what the builders produce. *)
Definition find_named (x : string) (l : list ChatAgent) : option ChatAgent :=
  List.find (λ a, bool_decide (agent_name a = x)) l.

Definition pair_agents (ps : list (ChatAgent * ChatAgent)) : list ChatAgent :=
  concat ((λ p, [p.1; p.2]) <$> ps).

Definition edge_names (ps : list (ChatAgent * ChatAgent)) : list (string * string) :=
  (λ p, (agent_name p.1, agent_name p.2)) <$> ps.

(** [chain w nodes]: the executors of [w] hold the nodes' agents with their
    output marks, and each node's only successor is the next node. *)
Fixpoint chain (w : Workflow) (nodes : list (ChatAgent * bool)) : Prop :=
  match nodes with
  | [] => True
  | (a, o) :: rest =>
      wf_executors w !! agent_name a = Some {| executor_agent := a; output_response := o |} ∧
      successors w (agent_name a) = (λ n, agent_name n.1) <$> take 1 rest ∧
      chain w rest
  end.

(** The spec's pipeline invariant (section 3): a simple path from the start
    executor through every node. *)
Definition linear_workflow (w : Workflow) (nodes : list (ChatAgent * bool)) : Prop :=
  match nodes with
  | [] => False
  | (a, _) :: _ => wf_start w = agent_name a ∧ chain w nodes
  end.

(** ** The agents' contract seen by the workflow

    The workflow only needs an agent to turn an input text into an output
    text or fail with the agent's error; [AgentRun] implements this
    interface with the framework's agent run. *)
Class AgentService (E : Type) := agent_respond : ChatAgent → string → result E string.

Inductive RunState := IN_PROGRESS | IDLE | FAILED.

Section Runner.
Context {E : Type} `{!AgentService E}.

Inductive RunError :=
| ExecutorError (executor_id : string) (err : E)
| ExecutorNotFound (executor_id : string)
| RunnerDidNotConverge (iterations : nat).

(** The events of one [run_stream]; the CLI consumes only
    [WorkflowOutputEvent]. *)
Inductive WorkflowEvent :=
| WorkflowStartedEvent
| WorkflowStatusEvent (state : RunState)
| ExecutorInvokedEvent (executor_id : string)
| AgentRunUpdateEvent (executor_id : string) (text : string)
| ExecutorCompletedEvent (executor_id : string)
| ExecutorFailedEvent (executor_id : string) (err : E)
| WorkflowOutputEvent (data : string)
| WorkflowFailedEvent (err : RunError).

(** The framework's superstep limit. *)
Definition max_iterations : nat := 100.

(** The events of an agent executor that answered [out]. *)
Definition executor_events (id : string) (out : string) (is_output : bool)
    : list WorkflowEvent :=
  [ExecutorInvokedEvent id; AgentRunUpdateEvent id out]
  ++ (if is_output then [WorkflowOutputEvent out] else [])
  ++ [ExecutorCompletedEvent id].

(** One executor handles one message: it runs its agent, yields the
    answer as workflow output when it is an output executor and sends
    the answer along each outgoing edge. *)
Definition run_executor (w : Workflow) (id : string) (msg : string)
    : list WorkflowEvent * result RunError (list (string * string)) :=
  match wf_executors w !! id with
  | None => ([], Err (ExecutorNotFound id))
  | Some ex =>
      match agent_respond (executor_agent ex) msg with
      | Err e => ([ExecutorInvokedEvent id; ExecutorFailedEvent id e], Err (ExecutorError id e))
      | Ok out =>
          (executor_events id out (output_response ex),
           Ok ((λ t, (t, out)) <$> successors w id))
      end
  end.

(** One superstep: deliver the pending messages in order; the first
    failure aborts it. *)
Fixpoint deliver (w : Workflow) (msgs : list (string * string))
    : list WorkflowEvent * result RunError (list (string * string)) :=
  match msgs with
  | [] => ([], Ok [])
  | (id, m) :: rest =>
      let '(evs, r) := run_executor w id m in
      match r with
      | Err e => (evs, Err e)
      | Ok sent =>
          let '(evs', r') := deliver w rest in
          (evs ++ evs', (λ sent', sent ++ sent') <$> r')
      end
  end.

(** Supersteps until no message is pending, at most [fuel] of them. *)
Fixpoint supersteps (fuel : nat) (w : Workflow) (pending : list (string * string))
    : list WorkflowEvent * option RunError :=
  match pending with
  | [] => ([], None)
  | _ :: _ =>
      match fuel with
      | 0 => ([], Some (RunnerDidNotConverge max_iterations))
      | S fuel' =>
          let '(evs, r) := deliver w pending in
          match r with
          | Err e => (evs, Some e)
          | Ok next =>
              let '(evs', r') := supersteps fuel' w next in
              (evs ++ evs', r')
          end
      end
  end.

(** [workflow.run_stream(message)]: the start executor receives the
    message, then the runner loop runs at most [max_iterations]
    supersteps; [frame] opens the stream with the start and in-progress
    events and closes it with the idle status, or with the failure events
    before the exception reaches the caller (the [option RunError]). *)
Definition frame (run : list WorkflowEvent * option RunError)
    : list WorkflowEvent * option RunError :=
  let '(evs, r) := run in
  ([WorkflowStartedEvent; WorkflowStatusEvent IN_PROGRESS] ++ evs ++
   match r with
   | None => [WorkflowStatusEvent IDLE]
   | Some e => [WorkflowFailedEvent e; WorkflowStatusEvent FAILED]
   end, r).

Definition run_stream (w : Workflow) (message : string)
    : list WorkflowEvent * option RunError :=
  frame (supersteps (S max_iterations) w [(wf_start w, message)]).

(** The data of the [WorkflowOutputEvent]s of a stream, in order. *)
Definition workflow_outputs (evs : list WorkflowEvent) : list string :=
  omap (λ ev, match ev with WorkflowOutputEvent d => Some d | _ => None end) evs.

(** ** The spec's walk (section 4.3)

    A pipeline as the spec describes it: its nodes in path order, each
    with its output mark.  The walk feeds each node's answer to the next
    one and emits the answer of an output node. *)
Fixpoint walk (nodes : list (ChatAgent * bool)) (msg : string)
    : list WorkflowEvent * option RunError :=
  match nodes with
  | [] => ([], None)
  | (a, is_output) :: rest =>
      match agent_respond a msg with
      | Err e =>
          ([ExecutorInvokedEvent (agent_name a); ExecutorFailedEvent (agent_name a) e],
           Some (ExecutorError (agent_name a) e))
      | Ok out =>
          let '(evs, r) := walk rest out in
          (executor_events (agent_name a) out is_output ++ evs, r)
      end
  end.

(** The linear pipeline of the spec's builder: only the last node is an
    output node. *)
Definition linear_nodes (agents : list ChatAgent) : list (ChatAgent * bool) :=
  imap (λ i a, (a, bool_decide (S i = length agents))) agents.

(** The function the pipeline computes: each agent's answer is the next
    one's input; the first failure is the result. *)
Definition pipeline (agents : list ChatAgent) (x : string) : result (string * E) string :=
  foldl (λ acc a, acc ≫= λ m, agent_respond a m !? (λ e, (agent_name a, e)))%docs
    (Ok x) agents.

(** The walk cut off after [fuel] nodes: the runner's view of a chain. *)
Definition cap_walk (fuel : nat) (nodes : list (ChatAgent * bool)) (msg : string)
    : list WorkflowEvent * option RunError :=
  let '(evs, r) := walk (take fuel nodes) msg in
  (evs, match r with
        | Some e => Some e
        | None => if decide (length nodes ≤ fuel) then None
                  else Some (RunnerDidNotConverge max_iterations)
        end).

Definition run_status (r : result (string * E) string) : option RunError :=
  match r with Ok _ => None | Err (n, e) => Some (ExecutorError n e) end.

Definition run_outputs (r : result (string * E) string) : list string :=
  match r with Ok y => [y] | Err _ => [] end.
End Runner.

Arguments RunError : clear implicits.
Arguments WorkflowEvent : clear implicits.

(** ** Concrete services for the examples *)

(** Every agent answers by tagging its input with its name. *)
Definition echo_service : AgentService string :=
  λ a m, Ok (agent_name a +:+ ": " +:+ m).

(** The docs agent's tool call fails upstream; the others echo. *)
Definition docs_down_service : AgentService string :=
  λ a m, if bool_decide (agent_name a = "microsoft-docs-agent")
         then Err "UpstreamServiceError" else Ok (agent_name a +:+ ": " +:+ m).

Definition example_agents : list ChatAgent :=
  [create_rewrite_agent example_client; (create_docs_agent example_client).1;
   create_summarize_agent example_client].

(** A chain longer than the superstep limit: agents named by three digits. *)
Definition digit (n : nat) : Ascii.ascii := Ascii.ascii_of_nat (48 + n mod 10).

Definition numbered_agents (n : nat) : list ChatAgent :=
  (λ i, {| chat_client := example_client; instructions := "";
           agent_name := String.String (digit (i / 100))
                           (String.String (digit (i / 10)) (String.String (digit i) ""));
           agent_tools := []; response_format := None |})
  <$> seq 0 n.

(** ** The builder *)

Lemma NoDup_fmap_inj_on {A B} (f : A → B) (l : list A) x y :
  NoDup (f <$> l) → x ∈ l → y ∈ l → f x = f y → x = y.
Proof.
  intros Hnd (i & Hi)%list_elem_of_lookup (j & Hj)%list_elem_of_lookup Hf.
  assert (i = j) as ->; [|congruence].
  eapply NoDup_lookup; [exact Hnd| |]; rewrite list_lookup_fmap; [rewrite Hi|rewrite Hj]; simpl;
    [done|by rewrite Hf].
Qed.

(** A wrap succeeds when the agent's name is unique among the agents in
    play and the table only holds those agents under their names; it adds
    the agent as a new executor unless it is already there. *)
Lemma maybe_wrap_Ok l a o b :
  NoDup (agent_name <$> l) → a ∈ l →
  (∀ x ex, wb_executors b !! x = Some ex → executor_agent ex ∈ l ∧ agent_name (executor_agent ex) = x) →
  ∃ b', maybe_wrap_agent a o b = Ok b' ∧
    (∀ x, wb_executors b' !! x =
       match wb_executors b !! x with
       | Some e => Some e
       | None => if decide (x = agent_name a) then Some {| executor_agent := a; output_response := o |} else None
       end) ∧
    wb_edges b' = wb_edges b ∧ wb_start b' = wb_start b ∧
    (∀ x ex, wb_executors b' !! x = Some ex → executor_agent ex ∈ l ∧ agent_name (executor_agent ex) = x).
Proof.
  intros Hnd Ha Htb. unfold maybe_wrap_agent.
  destruct (wb_executors b !! agent_name a) as [ex|] eqn:Hx.
  - destruct (Htb _ _ Hx) as [Hin Hn].
    assert (executor_agent ex = a) as Hex by (eapply NoDup_fmap_inj_on; eauto).
    try rewrite decide_True by done. eexists; split; [done|]. split_and!; [|done|done|done].
    intros x. destruct (wb_executors b !! x) eqn:Hb; [done|].
    case_decide; [subst; congruence|done].
  - eexists; split; [done|]. unfold register_agent; cbn [wb_executors wb_edges wb_start].
    split_and!; [|done|done|].
    + intros x. destruct (decide (x = agent_name a)) as [->|Hxa]; [by rewrite lookup_insert_eq, Hx|].
      rewrite lookup_insert_ne by done. by destruct (_ !! x).
    + intros x ex. destruct (decide (x = agent_name a)) as [->|Hxa].
      * rewrite lookup_insert_eq. by intros [= <-].
      * rewrite lookup_insert_ne by done. apply Htb.
Qed.

Lemma find_named_elem l' l a :
  (∀ b, b ∈ l' → b ∈ l) → NoDup (agent_name <$> l) → a ∈ l' →
  find_named (agent_name a) l' = Some a.
Proof.
  intros Hsub Hnd Ha. unfold find_named.
  destruct (List.find _ l') as [b|] eqn:Hf.
  - apply find_some in Hf as [Hb%list_elem_of_In Hn]. apply bool_decide_eq_true in Hn.
    f_equal. eapply NoDup_fmap_inj_on; eauto.
  - apply list_elem_of_In in Ha. eapply find_none in Hf; [|exact Ha].
    by rewrite bool_decide_eq_false in Hf.
Qed.

(** Edges between agents of [l], added to such a table, all succeed. *)
Lemma add_edges_Ok l ps b :
  NoDup (agent_name <$> l) → (∀ p, p ∈ pair_agents ps → p ∈ l) →
  (∀ x ex, wb_executors b !! x = Some ex → executor_agent ex ∈ l ∧ agent_name (executor_agent ex) = x) →
  ∃ b', add_edges ps b = Ok b' ∧
    (∀ x, wb_executors b' !! x =
       match wb_executors b !! x with
       | Some e => Some e
       | None => (λ a, {| executor_agent := a; output_response := false |}) <$> find_named x (pair_agents ps)
       end) ∧
    wb_edges b' = wb_edges b ++ edge_names ps ∧ wb_start b' = wb_start b.
Proof.
  intros Hnd. revert b; induction ps as [|[x y] ps IH]; intros b Hps Htb; simpl.
  - eexists; split; [done|]. split_and!; [|by rewrite app_nil_r|done]. intros z. by destruct (_ !! z).
  - destruct (maybe_wrap_Ok l x false b) as (b1 & E1 & Hl1 & He1 & Hs1 & Ht1);
      [done|apply Hps; set_solver|done|].
    destruct (maybe_wrap_Ok l y false b1) as (b2 & E2 & Hl2 & He2 & Hs2 & Ht2);
      [done|apply Hps; set_solver|done|].
    unfold add_edge. rewrite E1. cbn [mbind result_bind]. rewrite E2. cbn [mbind result_bind].
    destruct (IH {| wb_executors := wb_executors b2; wb_edges := wb_edges b2 ++ [(agent_name x, agent_name y)];
                    wb_start := wb_start b2 |}) as (b' & E' & Hl & He & Hs);
      [intros p Hp; apply Hps; set_solver|done|].
    exists b'. split; [done|]. split_and!.
    + intros z. rewrite Hl. cbn [wb_executors]. rewrite Hl2, Hl1.
      unfold find_named; simpl. destruct (wb_executors b !! z); [done|].
      repeat case_decide; simpl; subst; try done; congruence.
    + rewrite He. cbn [wb_edges]. rewrite He2, He1, <-app_assoc. done.
    + rewrite Hs. cbn [wb_start]. by rewrite Hs2, Hs1.
Qed.

Lemma elem_of_pair_agents x y l a :
  a ∈ pair_agents (chain_pairs (x :: y :: l)) ↔ a ∈ x :: y :: l.
Proof.
  revert x y; induction l as [|z l IH]; intros x y.
  - unfold pair_agents, chain_pairs; simpl. rewrite !elem_of_cons. tauto.
  - change (pair_agents (chain_pairs (x :: y :: z :: l)))
      with (x :: y :: pair_agents (chain_pairs (y :: z :: l))).
    rewrite !(elem_of_cons _ a), IH, !elem_of_cons. tauto.
Qed.

Lemma edge_names_zip l k :
  edge_names (zip l k) = zip (agent_name <$> l) (agent_name <$> k).
Proof.
  revert k; induction l as [|x l IH]; intros [|y k]; simpl; try done. by rewrite <-IH.
Qed.

Lemma edge_names_chain_pairs l :
  edge_names (chain_pairs l) = chain_pairs (agent_name <$> l).
Proof. unfold chain_pairs. rewrite edge_names_zip. by destruct l. Qed.

Lemma filter_zip_fst_absent {B} (x : string) (l : list string) (k : list B) :
  x ∉ l → filter (λ e, e.1 = x) (zip l k) = [].
Proof.
  revert k; induction l as [|y l IH]; intros [|z k] Hx; simpl; try done.
  rewrite filter_cons, decide_False by set_solver. apply IH. set_solver.
Qed.

Lemma successors_chain_pairs (ns : list string) i x :
  NoDup ns → ns !! i = Some x →
  snd <$> filter (λ e, e.1 = x) (chain_pairs ns) = take 1 (drop (S i) ns).
Proof.
  unfold chain_pairs. revert i; induction ns as [|y ns IH]; intros i Hnd Hi; [done|].
  apply NoDup_cons in Hnd as [Hy Hnd].
  destruct ns as [|z ns].
  { destruct i; [|by destruct i]. done. }
  change (zip (y :: z :: ns) (tail (y :: z :: ns))) with ((y, z) :: zip (z :: ns) ns).
  rewrite filter_cons. destruct i as [|i]; simpl in Hi.
  - injection Hi as ->. rewrite decide_True by done.
    by rewrite filter_zip_fst_absent.
  - rewrite decide_False.
    2: { simpl. intros ->. apply Hy. by eapply list_elem_of_lookup_2. }
    by apply (IH i).
Qed.

Lemma first_duplicate_NoDup {A} `{EqDecision A} (l : list A) :
  NoDup l → first_duplicate l = None.
Proof. induction 1; simpl; [done|]. by rewrite bool_decide_eq_false_2. Qed.

Lemma chain_intro w nodes :
  (∀ i a o, nodes !! i = Some (a, o) →
     wf_executors w !! agent_name a = Some {| executor_agent := a; output_response := o |} ∧
     successors w (agent_name a) = (λ n, agent_name n.1) <$> take 1 (drop (S i) nodes)) →
  chain w nodes.
Proof.
  induction nodes as [|[a o] rest IH]; intros H; simpl; [done|].
  destruct (H 0 a o) as [H1 H2]; [done|]. split_and!; [done|done|].
  apply IH. intros i b o' Hi. by apply (H (S i)).
Qed.

Lemma linear_nodes_lookup agents i a o :
  linear_nodes agents !! i = Some (a, o) ↔
  agents !! i = Some a ∧ o = bool_decide (S i = length agents).
Proof.
  unfold linear_nodes. rewrite list_lookup_imap.
  destruct (agents !! i); simpl; split; try discriminate.
  - by intros [= -> ->].
  - by intros [[= ->] ->].
  - by intros [].
Qed.

Lemma linear_nodes_names agents k :
  (λ n, agent_name n.1) <$> take 1 (drop k (linear_nodes agents)) =
  take 1 (drop k (agent_name <$> agents)).
Proof.
  rewrite fmap_take, fmap_drop. f_equal. f_equal.
  apply list_eq. intros i. rewrite !list_lookup_fmap. unfold linear_nodes.
  rewrite list_lookup_imap. by destruct (agents !! i).
Qed.



(** the spec's straight-line builder, on agents with distinct names,
    builds a workflow whose start is the first agent, whose executors hold
    the agents with only the last one marked as output, and whose edges
    form the simple path through the agents in order. *)
Theorem build_linear_correct agents :
  agents ≠ [] → NoDup (agent_name <$> agents) →
  ∃ w, build_linear agents = Ok w ∧ linear_workflow w (linear_nodes agents).
Proof.
  intros Hne Hnd. destruct agents as [|first rest]; [done|].
  destruct (last (first :: rest)) as [lst|] eqn:Hlast; [|by apply last_None in Hlast].
  unfold build_linear. rewrite Hlast. simpl default.
  assert (Hlst : lst ∈ first :: rest) by (apply last_Some_elem_of; done).
  destruct (maybe_wrap_Ok (first :: rest) lst true WorkflowBuilder_new) as (b1 & E1 & Hl1 & He1 & _ & Ht1);
    [done|done|intros x ex; cbn [wb_executors WorkflowBuilder_new]; by rewrite lookup_empty|].
  destruct (add_edges_Ok (first :: rest) (chain_pairs (first :: rest)) b1) as (b2 & E2 & Hl2 & He2 & Hs2);
    [done| |done|].
  { intros p. destruct rest as [|y rest]; [simpl; set_solver|]. by rewrite elem_of_pair_agents. }
  destruct (maybe_wrap_Ok (first :: rest) first false b2) as (b3 & E3 & Hl3 & He3 & _ & _);
    [done|set_solver| |].
  { intros x ex. rewrite Hl2. destruct (wb_executors b1 !! x) eqn:Hb1.
    - intros [= <-]. by apply Ht1.
    - destruct (find_named x _) as [a|] eqn:Hf; [|done]. intros [= <-]. cbn [executor_agent].
      unfold find_named in Hf. apply find_some in Hf as [Ha%list_elem_of_In Hn%bool_decide_eq_true].
      split; [|done]. destruct rest as [|y rest]; [simpl in Ha; set_solver|]. by apply elem_of_pair_agents. }
  unfold add_agent, set_start_executor. rewrite E1. cbn [mbind result_bind]. rewrite E2.
  cbn [mbind result_bind]. rewrite E3. cbn [mbind result_bind].
  assert (Hedges : wb_edges b3 = chain_pairs (agent_name <$> first :: rest)).
  { rewrite He3, He2, He1. simpl. apply edge_names_chain_pairs. }
  unfold build. cbn [wb_start wb_edges wb_executors].
  rewrite Hedges, ?first_duplicate_NoDup by (by apply NoDup_zip_l).
  eexists; split; [reflexivity|]. split; [done|].
  apply chain_intro. intros i a o Hi. apply linear_nodes_lookup in Hi as [Hi ->].
  rewrite last_lookup in Hlast. cbn [wf_executors]. split.
  - rewrite Hl3, Hl2, Hl1. cbn [wb_executors WorkflowBuilder_new]. rewrite lookup_empty. cbn iota.
    destruct (decide (agent_name a = agent_name lst)) as [Heq|Hneq].
    + assert (a = lst) as ->.
      { eapply NoDup_fmap_inj_on; eauto using list_elem_of_lookup_2. }
      assert (i = pred (length (first :: rest))) as ->.
      { eapply NoDup_lookup; [apply Hnd| |]; rewrite list_lookup_fmap; [rewrite Hi|rewrite Hlast]; done. }
      by rewrite bool_decide_eq_true_2.
    + rewrite bool_decide_eq_false_2.
      2: { intros Hlen. apply Hneq.
           assert (i = pred (length (first :: rest))) as Heq by lia.
           rewrite <-Heq in Hlast. congruence. }
      destruct rest as [|y rest].
      { destruct i as [|[]]; simpl in *; congruence. }
      rewrite (find_named_elem _ (first :: y :: rest)); [done| |done|].
      * intros b. by rewrite elem_of_pair_agents.
      * rewrite elem_of_pair_agents. eauto using list_elem_of_lookup_2.
  - unfold successors. cbn [wf_edges]. rewrite linear_nodes_names.
    change (agent_name first :: (agent_name <$> rest)) with (agent_name <$> first :: rest).
    apply successors_chain_pairs; [done|]. by rewrite list_lookup_fmap, Hi.
Qed.

(** ** The runner *)

Section RunnerFacts.
Context {E : Type} `{!AgentService E}.

Lemma pipeline_err_foldl (l : list ChatAgent) (e : string * E) :
  foldl (λ acc a, acc ≫= λ m, agent_respond a m !? (λ e, (agent_name a, e)))%docs (Err e) l = Err e.
Proof. induction l; simpl; auto. Qed.

Lemma pipeline_nil x : pipeline [] x = Ok x.
Proof. reflexivity. Qed.

Lemma pipeline_cons a l x :
  pipeline (a :: l) x =
    match agent_respond a x with
    | Ok y => pipeline l y
    | Err e => Err (agent_name a, e)
    end.
Proof.
  unfold pipeline; simpl. destruct (agent_respond a x); simpl; [done|].
  apply pipeline_err_foldl.
Qed.

Lemma walk_linear init l x :
  workflow_outputs (walk (((λ a, (a, false)) <$> init) ++ [(l, true)]) x).1
    = run_outputs (pipeline (init ++ [l]) x) ∧
  (walk (((λ a, (a, false)) <$> init) ++ [(l, true)]) x).2
    = run_status (pipeline (init ++ [l]) x).
Proof.
  revert x; induction init as [|a init IH]; intros x; simpl;
    rewrite ?pipeline_cons; destruct (agent_respond _ x) as [y|e]; simpl; auto.
  generalize (IH y). destruct (walk _ y) as [evs r]; simpl.
  auto.
Qed.

Lemma linear_nodes_snoc init l :
  linear_nodes (init ++ [l]) = ((λ a, (a, false)) <$> init) ++ [(l, true)].
Proof.
  unfold linear_nodes. rewrite imap_app, length_app. simpl. f_equal.
  - apply list_eq. intros i. rewrite list_lookup_imap, list_lookup_fmap.
    destruct (init !! i) eqn:Hi; simpl; [|done].
    apply lookup_lt_Some in Hi. by rewrite bool_decide_eq_false_2 by lia.
  - by rewrite bool_decide_eq_true_2 by lia.
Qed.

Lemma supersteps_nil fuel w : supersteps fuel w [] = ([], None).
Proof. by destruct fuel. Qed.

Lemma supersteps_chain w a o rest fuel msg :
  chain w ((a, o) :: rest) →
  supersteps fuel w [(agent_name a, msg)] = cap_walk fuel ((a, o) :: rest) msg.
Proof.
  revert a o fuel msg. induction rest as [|[b o'] rest IH]; intros a o fuel msg (Hlk & Hsucc & Hch);
    (destruct fuel as [|fuel]; [reflexivity|]);
    unfold cap_walk; simpl; unfold run_executor; rewrite Hlk, Hsucc; simpl;
    destruct (agent_respond a msg) as [out|e]; simpl; auto.
  - rewrite supersteps_nil, take_nil. simpl. by rewrite !app_nil_r.
  - rewrite (IH b o') by done. unfold cap_walk.
    destruct (walk (take fuel ((b, o') :: rest)) out) as [evs r]; simpl.
    rewrite app_nil_r. repeat f_equal. destruct r; [done|].
    repeat case_decide; simpl in *; auto; lia.
Qed.

Lemma frame_outputs (run : list (WorkflowEvent E) * option (RunError E)) :
  workflow_outputs (frame run).1 = workflow_outputs run.1 ∧ (frame run).2 = run.2.
Proof.
  destruct run as [evs r]; simpl. unfold workflow_outputs.
  rewrite !omap_app. by destruct r; simpl; rewrite !app_nil_r.
Qed.

(** on a linear workflow of at most [S max_iterations] nodes, the
    framework's superstep runner produces exactly the event stream and
    the error of the spec's walk. *)
Theorem run_stream_walk w nodes msg :
  linear_workflow w nodes → length nodes ≤ S max_iterations →
  run_stream w msg = frame (walk nodes msg).
Proof.
  destruct nodes as [|[a o] rest]; [done|]. intros [Hstart Hch] Hlen.
  unfold run_stream. rewrite Hstart, (supersteps_chain _ a o rest) by done.
  unfold cap_walk. rewrite take_ge by lia.
  destruct (walk _ msg) as [evs [e|]]; [done|]. by rewrite decide_True by lia.
Qed.

(** a linear workflow longer than the superstep limit whose first
    [S max_iterations] agents all answer fails with the runner's
    convergence error. *)
Theorem run_stream_diverges w nodes msg :
  linear_workflow w nodes → S max_iterations < length nodes →
  (walk (take (S max_iterations) nodes) msg).2 = None →
  (run_stream w msg).2 = Some (RunnerDidNotConverge max_iterations).
Proof.
  destruct nodes as [|[a o] rest]; [done|]. intros [Hstart Hch] Hlen Hok.
  unfold run_stream. rewrite Hstart, (supersteps_chain _ a o rest) by done.
  unfold cap_walk. destruct (walk _ msg) as [evs r]; simpl in *; subst.
  by rewrite decide_False by lia.
Qed.

(** a pipeline built by the straight-line builder from at most
    [S max_iterations] agents with distinct names yields, for every input,
    exactly one workflow output, the composition of the agents' answers,
    when every agent answers, and otherwise no output and the error of the
    first agent that failed. *)
Theorem linear_pipeline_run agents :
  agents ≠ [] → NoDup (agent_name <$> agents) → length agents ≤ S max_iterations →
  ∃ w, build_linear agents = Ok w ∧ ∀ x,
    workflow_outputs (run_stream w x).1 = run_outputs (pipeline agents x) ∧
    (run_stream w x).2 = run_status (pipeline agents x).
Proof.
  intros Hne Hnd Hlen.
  destruct (build_linear_correct agents Hne Hnd) as (w & Hb & Hlin).
  exists w; split; [done|]. intros x.
  rewrite (run_stream_walk w (linear_nodes agents)); [|done|by unfold linear_nodes; rewrite length_imap].
  destruct (frame_outputs (walk (linear_nodes agents) x)) as [-> ->].
  destruct (exists_last Hne) as (init & l & ->).
  rewrite linear_nodes_snoc. apply walk_linear.
Qed.
End RunnerFacts.

(** ** The repository's workflow *)


Lemma documentation_agents_distinct c :
  NoDup (agent_name <$> [create_rewrite_agent c; (create_docs_agent c).1; create_summarize_agent c]).
Proof. apply (bool_decide_unpack _). vm_compute. reflexivity. Qed.

Lemma documentation_builder_linear r d s :
  create_documentation_workflow r d s = build_linear [r; d; s].
Proof.
  unfold create_documentation_workflow, build_linear.
  change (last [r; d; s]) with (Some s). change (chain_pairs [r; d; s]) with [(r, d); (d, s)].
  cbn [default add_edges id]. destruct (add_agent s true WorkflowBuilder_new) as [b|]; [|done].
  cbn [mbind result_bind]. destruct (add_edge r d b) as [b1|]; [|done].
  cbn [mbind result_bind]. by destruct (add_edge d s b1).
Qed.

(** The wiring of the repository's three agents succeeds, on every client. *)
Lemma documentation_workflow_Ok c :
  ∃ w, create_documentation_workflow (create_rewrite_agent c) (create_docs_agent c).1
         (create_summarize_agent c) = Ok w.
Proof.
  rewrite documentation_builder_linear.
  destruct (build_linear_correct [create_rewrite_agent c; (create_docs_agent c).1; create_summarize_agent c])
    as (w & Hw & _); [discriminate|apply documentation_agents_distinct|]. eauto.
Qed.

Section DocumentationRun.
Context {E : Type} `{!AgentService E}.
Variable c : AzureOpenAIResponsesClient.

Let rewrite_agent := create_rewrite_agent c.
Let docs_agent := (create_docs_agent c).1.
Let summarize_agent := create_summarize_agent c.

(** C13: for every behaviour of the agents, a run of the documentation
    workflow emits exactly one output, summarize(docs(rewrite(x))), when
    all three agents answer, and otherwise no output and the error of the
    first agent that failed (spec section 8, scenarios A and D). *)
Theorem documentation_workflow_run :
  ∃ w, create_documentation_workflow rewrite_agent docs_agent summarize_agent = Ok w ∧ ∀ x,
    workflow_outputs (run_stream w x).1
      = run_outputs (pipeline [rewrite_agent; docs_agent; summarize_agent] x) ∧
    (run_stream w x).2 = run_status (pipeline [rewrite_agent; docs_agent; summarize_agent] x).
Proof.
  rewrite documentation_builder_linear.
  apply linear_pipeline_run; [discriminate|apply documentation_agents_distinct|].
  unfold max_iterations. simpl. lia.
Qed.

(** C19: for any three agents with distinct names, the code's wiring is a
    linear workflow through rewrite, docs and summarize, and every run of
    it is the spec's walk through the three agents (spec section 4.3):
    the events of each agent in order, the summarize answer as the only
    output, and an abort at the first failing agent. *)
Theorem documentation_workflow_walk r d s :
  NoDup (agent_name <$> [r; d; s]) →
  ∃ w, create_documentation_workflow r d s = Ok w ∧
    linear_workflow w (linear_nodes [r; d; s]) ∧
    ∀ x, run_stream w x = frame (walk (linear_nodes [r; d; s]) x).
Proof.
  intros Hnd. rewrite documentation_builder_linear.
  destruct (build_linear_correct [r; d; s]) as (w & Hw & Hlin); [discriminate|done|].
  exists w. split_and!; [done|done|]. intros x.
  apply run_stream_walk; [done|]. unfold max_iterations. simpl. lia.
Qed.
End DocumentationRun.

(** One step of a builder computation: a lookup in the executor table, a
    bind on a known result, or a case on a decision. *)
Local Ltac builder_step := first
  [ rewrite lookup_insert_eq | rewrite lookup_insert_ne by congruence | rewrite lookup_empty
  | progress cbn [mbind result_bind wb_executors wb_edges wb_start executor_agent first_duplicate app]
  | case_decide | case_bool_decide ].

(** C15: the wiring raises instead of merging agents: [create_documentation_workflow]
    fails with a duplicate executor id (the framework's [ValueError])
    exactly when two different agents share a name, and with a duplicate
    edge exactly when one agent fills all three roles; the start executor
    is always set. *)
Theorem documentation_workflow_error r d s :
  ((∃ n, create_documentation_workflow r d s = Err (DuplicateExecutorId n)) ↔
     (agent_name r = agent_name d ∧ r ≠ d) ∨ (agent_name r = agent_name s ∧ r ≠ s) ∨
     (agent_name d = agent_name s ∧ d ≠ s)) ∧
  (∀ x y, create_documentation_workflow r d s = Err (EdgeDuplication x y) ↔
     r = d ∧ d = s ∧ x = agent_name r ∧ y = agent_name r) ∧
  create_documentation_workflow r d s ≠ Err StartExecutorNotSet.
Proof.
  unfold create_documentation_workflow, add_agent, add_edge, set_start_executor, maybe_wrap_agent,
    register_agent, build.
  cbn [wb_executors wb_edges wb_start WorkflowBuilder_new mbind result_bind].
  remember (agent_name r) as nr eqn:Hnr. remember (agent_name d) as nd eqn:Hnd.
  remember (agent_name s) as ns eqn:Hns.
  destruct (decide (nr = ns)) as [<-|Hrs]; [|destruct (decide (nd = nr)) as [<-|Hdr]];
    [destruct (decide (nd = nr)) as [<-|Hdr]| |]; try destruct (decide (nd = ns)) as [<-|Hds].
  all: repeat builder_step.
  all: repeat match goal with H : _ ∈ [_] |- _ => apply list_elem_of_singleton in H end.
  all: subst; simplify_eq.
  all: split_and!; [split|intros ??; split|]; intros; try naive_solver; set_solver.
Qed.

(** ** Witnesses and examples *)

(** The superstep limit is real: a chain of 102 echoing agents fails. *)
Example long_chain_diverges :
  ∃ w, build_linear (numbered_agents 102) = Ok w ∧
    (@run_stream _ echo_service w "q").2 = Some (RunnerDidNotConverge max_iterations).
Proof.
  eexists; split; [vm_compute; reflexivity|].
  match goal with |- (run_stream ?w _).2 = _ =>
    assert (H : linear_workflow w (linear_nodes (numbered_agents 102)))
      by (vm_compute; split_and!; reflexivity) end.
  apply (@run_stream_diverges _ echo_service _ _ _ H); vm_compute; [lia|reflexivity].
Qed.

Lemma documentation_workflow_walk_witness :
  NoDup (agent_name <$> example_agents) ∧
  ∃ w, create_documentation_workflow (create_rewrite_agent example_client)
         (create_docs_agent example_client).1 (create_summarize_agent example_client) = Ok w ∧
    ∀ x, @run_stream _ docs_down_service w x
           = frame (@walk _ docs_down_service (linear_nodes example_agents) x).
Proof.
  assert (Hnd : NoDup (agent_name <$> example_agents))
    by (apply (bool_decide_unpack _); vm_compute; reflexivity).
  split; [exact Hnd|].
  destruct (@documentation_workflow_walk _ docs_down_service _ _ _ Hnd) as (w & Hw & _ & Hrun).
  exists w. split; [exact Hw|exact Hrun].
Defined.

