(* ===== verification/AgentRun.v ===== *)
(** * One agent run: inference, tool calls and the output schema

    [ChatAgent.run] of the agent framework is not code of this repository;
    it is modelled from the agent contract of the spec (section 4.1).  A
    run sends the agent's instructions as a system message and the input
    as a user message to the inference service, then loops:
    - a reply that calls an operation is served by the first tool of the
      agent whose [allowed_tools] list the operation, and the call and its
      result are appended to the conversation; an operation no tool allows
      fails the run with [ToolNotPermitted] before any call is made;
    - a final text is the answer, except that an agent with
      [response_format=DocsResponse] fails with [SchemaViolation] when the
      text does not validate ([Responses.model_validate_json]);
    - a failing inference or tool call fails the run with
      [UpstreamServiceError], its detail unchanged.

    The inference service and the tool endpoint are opaque functions, the
    Section variables [infer] and [call_tool].  Neither the code nor the
    spec bounds the number of tool rounds: a model that keeps calling
    tools keeps the run going.  The loop is therefore observed for [turns]
    model turns, a variable every theorem quantifies over: a run that has
    not ended by then has no outcome yet ([None]), which is not an error
    of the program.  [framework_service] packages the run as the
    [AgentService] of [Workflow], so that the workflow theorems apply to
    the agents as the framework runs them. *)

From S2P Require Import Prelude Json Responses Agents Workflow.

(** ** Definitions *)

(** The conversation sent to the inference service. *)
Inductive Message :=
| SystemMessage (text : string)
| UserMessage (text : string)
| FunctionCallMessage (op : string) (arguments : string)
| FunctionResultMessage (op : string) (result : string).

(** One reply of the inference service. *)
Inductive ModelReply :=
| CallTool (op : string) (arguments : string)
| FinalText (text : string).

Inductive AgentError :=
| SchemaViolation (errors : list ErrorDetails)
| ToolNotPermitted (op : string)
| UpstreamServiceError (detail : string).

(** A call the run made: the tool and the operation. *)
Abbreviation ToolInvocation := (MCPStreamableHTTPTool * string)%type.

Section AgentRun.
Variable infer : ChatAgent → list Message → result string ModelReply.
Variable call_tool : MCPStreamableHTTPTool → string → string → result string string.
Variable turns : nat.

(** The answer of a final text: checked against the response format. *)
Definition finish (a : ChatAgent) (text : string) : result AgentError string :=
  match response_format a with
  | None => Ok text
  | Some DocsResponseFormat =>
      match model_validate_json text with
      | Ok _ => Ok text
      | Err es => Err (SchemaViolation es)
      end
  end.

(** The loop of a run over [fuel] model turns, with the calls it made;
    [None] when the run has not ended within them. *)
Fixpoint run_loop (fuel : nat) (a : ChatAgent) (msgs : list Message)
    : option (result AgentError string) * list ToolInvocation :=
  match fuel with
  | 0 => (None, [])
  | S f =>
      match infer a msgs with
      | Err d => (Some (Err (UpstreamServiceError d)), [])
      | Ok (FinalText t) => (Some (finish a t), [])
      | Ok (CallTool op args) =>
          match agent_tool_for a op with
          | None => (Some (Err (ToolNotPermitted op)), [])
          | Some t =>
              match call_tool t op args with
              | Err d => (Some (Err (UpstreamServiceError d)), [(t, op)])
              | Ok res =>
                  let '(r, calls) :=
                    run_loop f a (msgs ++ [FunctionCallMessage op args; FunctionResultMessage op res]) in
                  (r, (t, op) :: calls)
              end
          end
      end
  end.

(** [await agent.run(input)], observed for [S turns] model turns. *)
Definition agent_run (a : ChatAgent) (input : string)
    : option (result AgentError string) * list ToolInvocation :=
  run_loop (S turns) a [SystemMessage (instructions a); UserMessage input].

(** The run as the workflow's executors see it; a run without an outcome
    yet ([Err None]) emits no answer. *)
Definition framework_service : AgentService (option AgentError) := λ a input,
  match (agent_run a input).1 with
  | Some (Ok y) => Ok y
  | Some (Err e) => Err (Some e)
  | None => Err None
  end.
End AgentRun.

(** A run failed because its final text broke the response format. *)
Definition schema_violated (r : option (result AgentError string)) : bool :=
  match r with Some (Err (SchemaViolation _)) => true | _ => false end.

(** ** Concrete services for the examples *)

Definition example_answer : DocsResponse := {|
  answer := "Azure Blob Storage stores unstructured data.";
  sources := ["https://learn.microsoft.com/azure/storage/blobs/"];
|}.

(** A model that makes the docs agent search once and then answer in the
    schema; the other agents answer with a bulleted summary. *)
Definition example_infer (a : ChatAgent) (msgs : list Message) : result string ModelReply :=
  if bool_decide (agent_name a = "microsoft-docs-agent") then
    match msgs with
    | [_; _] => Ok (CallTool "microsoft_docs_search" "{}")
    | _ => Ok (FinalText (model_dump_json example_answer))
    end
  else Ok (FinalText "- Azure Blob Storage").

(** A model that asks every agent for the search operation. *)
Definition searching_infer (a : ChatAgent) (msgs : list Message) : result string ModelReply :=
  Ok (CallTool "microsoft_docs_search" "{}").

Definition example_call_tool (t : MCPStreamableHTTPTool) (op args : string) : result string string :=
  Ok "Blob storage is optimized for storing massive amounts of unstructured data.".

(** ** Lemmas *)

(** Case on the tool the loop dispatches a call to. *)
Local Ltac destruct_tool t :=
  match goal with
  | |- context [match ?o with Some _ => _ | None => _ end] =>
      match type of o with option MCPStreamableHTTPTool => destruct o as [t|] end
  end.

Section RunFacts.
Variable infer : ChatAgent → list Message → result string ModelReply.
Variable call_tool : MCPStreamableHTTPTool → string → string → result string string.

(** Every call a run makes goes to the tool the agent has for it. *)
Lemma run_loop_calls fuel a msgs t op :
  (t, op) ∈ (run_loop infer call_tool fuel a msgs).2 → agent_tool_for a op = Some t.
Proof.
  revert msgs. induction fuel as [|f IH]; intros msgs; simpl; [set_solver|].
  destruct (infer a msgs) as [[op' args|txt]|d]; simpl; try set_solver.
  destruct (agent_tool_for a op') as [t'|] eqn:Ht; simpl; [|set_solver].
  destruct (call_tool t' op' args) as [res|d]; simpl.
  - destruct (run_loop _ _ f a _) as [r calls] eqn:E. simpl.
    rewrite elem_of_cons. intros [[= -> ->]|Hc]; [done|].
    apply (IH (msgs ++ [FunctionCallMessage op' args; FunctionResultMessage op' res])). by rewrite E.
  - rewrite list_elem_of_singleton. by intros [= -> ->].
Qed.

(** An agent without tools makes no call. *)
Lemma run_loop_no_tools fuel a msgs :
  agent_tools a = [] → (run_loop infer call_tool fuel a msgs).2 = [].
Proof.
  intros Hno. destruct fuel as [|f]; simpl; [done|].
  destruct (infer a msgs) as [[op args|txt]|d]; simpl; try done.
  rewrite ?agent_tool_for_nil, ?Hno; done.
Qed.

(** A run ends in the answer of [finish] or in an error of the loop. *)
Lemma run_loop_Ok fuel a msgs out :
  (run_loop infer call_tool fuel a msgs).1 = Some (Ok out) → ∃ t, finish a t = Ok out.
Proof.
  revert msgs. induction fuel as [|f IH]; intros msgs; simpl; [done|].
  destruct (infer a msgs) as [[op args|txt]|d]; simpl; try done; [|intros [= Hf]; eauto].
  destruct_tool t'; simpl; [|done].
  destruct (call_tool t' op args) as [res|d]; simpl; [|done].
  destruct (run_loop _ _ f a _) as [r calls] eqn:E. simpl. intros ->.
  apply (IH (msgs ++ [FunctionCallMessage op args; FunctionResultMessage op res])). by rewrite E.
Qed.

Lemma run_loop_schema fuel a msgs :
  schema_violated (run_loop infer call_tool fuel a msgs).1 = true →
  ∃ t es, finish a t = Err (SchemaViolation es).
Proof.
  revert msgs. induction fuel as [|f IH]; intros msgs; simpl; [done|].
  destruct (infer a msgs) as [[op args|txt]|d]; simpl; try done.
  - destruct_tool t'; simpl; [|done].
    destruct (call_tool t' op args) as [res|d]; simpl; [|done].
    destruct (run_loop _ _ f a _) as [r calls] eqn:E. simpl. intros Hs.
    apply (IH (msgs ++ [FunctionCallMessage op args; FunctionResultMessage op res])). by rewrite E.
  - destruct (finish a txt) as [|[]] eqn:E; simpl; try done. eauto.
Qed.

Lemma finish_docs_Ok a t out :
  response_format a = Some DocsResponseFormat → finish a t = Ok out →
  out = t ∧ ∃ r, model_validate_json t = Ok r.
Proof.
  unfold finish. intros ->. destruct (model_validate_json t) eqn:E; [|done]. intros [= <-]. eauto.
Qed.

Lemma finish_plain a t : response_format a = None → finish a t = Ok t.
Proof. unfold finish. by intros ->. Qed.

End RunFacts.

(** ** The repository's agents under the framework's run *)

Section RepositoryAgents.
Variable infer : ChatAgent → list Message → result string ModelReply.
Variable call_tool : MCPStreamableHTTPTool → string → string → result string string.
Variable turns : nat.
Variable c : AzureOpenAIResponsesClient.

Let run := agent_run infer call_tool turns.
Let rewrite_agent := create_rewrite_agent c.
Let docs_agent := (create_docs_agent c).1.
Let summarize_agent := create_summarize_agent c.

(** C8: every call a run of the docs agent makes is the operation
    [microsoft_docs_search] on the Microsoft Learn MCP tool that
    [create_docs_agent] returns: the agent cannot reach any other
    operation of the MCP server (spec sections 3 and 4.1). *)
Theorem docs_agent_tool_calls x t op :
  (t, op) ∈ (run docs_agent x).2 → t = (create_docs_agent c).2 ∧ op = "microsoft_docs_search".
Proof.
  intros [Ht Hop]%run_loop_calls%agent_tool_for_Some.
  apply list_elem_of_singleton in Ht as ->. by apply list_elem_of_singleton in Hop.
Qed.

(** C10: an answer of the docs agent is text that [DocsResponse] validates:
    the structured-output contract of the docs agent holds for every
    behaviour of the inference service and the tool. *)
Theorem docs_agent_output_validates x out :
  (run docs_agent x).1 = Some (Ok out) → ∃ r, model_validate_json out = Ok r.
Proof.
  intros (t & Ht)%run_loop_Ok. by destruct (finish_docs_Ok docs_agent _ _ eq_refl Ht) as [-> ?].
Qed.

(** C17: the rewrite and summarize agents have no tools: a run of either
    makes no tool call, and a request of the model for any operation
    fails the run with [ToolNotPermitted]. *)
Theorem tool_free_agents_refuse_calls a x op args :
  a = rewrite_agent ∨ a = summarize_agent →
  (run a x).2 = [] ∧
  (infer a [SystemMessage (instructions a); UserMessage x] = Ok (CallTool op args) →
   (run a x).1 = Some (Err (ToolNotPermitted op))).
Proof.
  intros Ha. assert (Hno : agent_tools a = []) by (by destruct Ha as [-> | ->]).
  split; [apply run_loop_no_tools, Hno|]. intros Hi.
  unfold run, agent_run. simpl. rewrite Hi, ?agent_tool_for_nil, ?Hno; done.
Qed.

(** C18: the summarize agent accepts any text, the docs agent's JSON
    included: no run of it fails with [SchemaViolation], and when the
    model answers the first request with a text, that text is the answer
    (spec section 8, round trip). *)
Theorem summarize_accepts_any_text x :
  schema_violated (run summarize_agent x).1 = false ∧
  ∀ t, infer summarize_agent [SystemMessage (instructions summarize_agent); UserMessage x]
         = Ok (FinalText t) →
       (run summarize_agent x).1 = Some (Ok t).
Proof.
  split.
  - destruct (schema_violated _) eqn:E; [|done].
    destruct (run_loop_schema _ _ _ _ _ E) as (t & es & Ht).
    by rewrite finish_plain in Ht.
  - intros t Hi. unfold run, agent_run. simpl in Hi |- *. rewrite Hi. cbn [fst]. f_equal; by apply finish_plain.
Qed.

(** C3: in the documentation workflow run by the framework, every output
    is the summary of an answer of the docs agent that validates as a
    [DocsResponse], the docs agent having answered the rewritten query:
    the three agents ran in order and each one succeeded. *)
Theorem documentation_run_validated :
  ∃ w, create_documentation_workflow rewrite_agent docs_agent summarize_agent = Ok w ∧
  ∀ x out,
    workflow_outputs (@run_stream _ (framework_service infer call_tool turns) w x).1 = [out] →
    ∃ q d r, (run rewrite_agent x).1 = Some (Ok q) ∧ (run docs_agent q).1 = Some (Ok d) ∧
      model_validate_json d = Ok r ∧ (run summarize_agent d).1 = Some (Ok out).
Proof.
  rewrite documentation_builder_linear.
  destruct (@linear_pipeline_run _ (framework_service infer call_tool turns)
              [rewrite_agent; docs_agent; summarize_agent]) as (w & Hw & Hrun);
    [discriminate|apply documentation_agents_distinct|unfold max_iterations; simpl; lia|].
  exists w. split; [done|]. intros x out. unfold run. rewrite (proj1 (Hrun x)).
  rewrite pipeline_cons. unfold agent_respond, framework_service.
  destruct (agent_run _ _ _ rewrite_agent x).1 as [[q|]|] eqn:Hq; [|done|done].
  rewrite pipeline_cons. unfold agent_respond, framework_service.
  destruct (agent_run _ _ _ docs_agent q).1 as [[d|]|] eqn:Hd; [|done|done].
  rewrite pipeline_cons. unfold agent_respond, framework_service.
  destruct (agent_run _ _ _ summarize_agent d).1 as [[o|]|] eqn:Hs; [|done|done].
  intros Hout. simpl in Hout. injection Hout as <-. destruct (run_loop_Ok _ _ _ _ _ _ Hd) as (t & Ht).
  destruct (finish_docs_Ok docs_agent _ _ eq_refl Ht) as [-> [r Hr]]. eauto 10.
Qed.

End RepositoryAgents.


(** ** Witnesses *)

Lemma docs_agent_tool_calls_witness :
  ((create_docs_agent example_client).2, "microsoft_docs_search") ∈
    (agent_run example_infer example_call_tool 3 (create_docs_agent example_client).1 "q").2 ∧
  (create_docs_agent example_client).2 = (create_docs_agent example_client).2 ∧
  "microsoft_docs_search" = "microsoft_docs_search".
Proof.
  assert (H : ((create_docs_agent example_client).2, "microsoft_docs_search") ∈
    (agent_run example_infer example_call_tool 3 (create_docs_agent example_client).1 "q").2)
    by (vm_compute; apply list_elem_of_here).
  split; [exact H|]. exact (docs_agent_tool_calls example_infer example_call_tool 3 example_client _ _ _ H).
Defined.

Lemma docs_agent_output_validates_witness :
  (agent_run example_infer example_call_tool 3 (create_docs_agent example_client).1 "q").1
    = Some (Ok (model_dump_json example_answer)) ∧
  ∃ r, model_validate_json (model_dump_json example_answer) = Ok r.
Proof.
  assert (H : (agent_run example_infer example_call_tool 3 (create_docs_agent example_client).1 "q").1
    = Some (Ok (model_dump_json example_answer))) by (vm_compute; reflexivity).
  split; [exact H|]. exact (docs_agent_output_validates example_infer example_call_tool 3 example_client _ _ H).
Defined.

Lemma tool_free_agents_refuse_calls_witness :
  (agent_run searching_infer example_call_tool 3 (create_rewrite_agent example_client) "q").2 = [] ∧
  (agent_run searching_infer example_call_tool 3 (create_rewrite_agent example_client) "q").1
    = Some (Err (ToolNotPermitted "microsoft_docs_search")).
Proof.
  destruct (tool_free_agents_refuse_calls searching_infer example_call_tool 3 example_client
              (create_rewrite_agent example_client) "q" "microsoft_docs_search" "{}" (or_introl eq_refl))
    as [H1 H2].
  split; [exact H1|]. apply H2. reflexivity.
Defined.

Lemma summarize_accepts_any_text_witness :
  (agent_run example_infer example_call_tool 3 (create_summarize_agent example_client)
     (model_dump_json example_answer)).1 = Some (Ok "- Azure Blob Storage").
Proof.
  apply (summarize_accepts_any_text example_infer example_call_tool 3 example_client). reflexivity.
Defined.

Lemma documentation_run_validated_witness :
  ∃ q d r,
    (agent_run example_infer example_call_tool 3 (create_rewrite_agent example_client) "q").1 = Some (Ok q) ∧
    (agent_run example_infer example_call_tool 3 (create_docs_agent example_client).1 q).1 = Some (Ok d) ∧
    model_validate_json d = Ok r ∧
    (agent_run example_infer example_call_tool 3 (create_summarize_agent example_client) d).1
      = Some (Ok "- Azure Blob Storage").
Proof.
  destruct (documentation_run_validated example_infer example_call_tool 3 example_client) as (w & Hw & H).
  vm_compute in Hw. injection Hw as <-.
  apply H. vm_compute. reflexivity.
Defined.


