(* ===== verification/Repl.v ===== *)
(** * The CLI loop

    Models [repl] in [src/main.py] (lines 58-70; the nested variant repeats
    it at lines 74-86 of [src/src/agents-in-workflow/main.py]):

    - [async with mcp_tool, rewrite_agent, docs_agent, summarize_agent:]
      enters the four context managers in order and exits the entered ones
      in reverse order on every way out of the block (normal end, the
      [break] of an exit command, an exception).  A failed [__aenter__]
      exits the ones entered before it and raises.  Whether an entry
      succeeds is the opaque [connect] of the section.
    - The loop reads a line with [input("You: ")] ([EOFError] when the
      input is exhausted), strips it, skips it when empty, says
      [Goodbye!] and leaves on [exit]/[quit], and otherwise runs the
      workflow on it, printing the data of each [WorkflowOutputEvent].
      An exception of the run is not caught: it leaves the loop.

    The loop is a structural recursion on the list of input lines and the
    observable behaviour is the trace of [ReplEffect]s. *)

From S2P Require Import Prelude PyStr Agents Workflow.

(** ** Definitions *)

(** The objects entered by the [async with] statement. *)
Inductive Resource :=
| ToolResource (t : MCPStreamableHTTPTool)
| AgentResource (a : ChatAgent).

Inductive ReplEffect :=
| Enter (r : Resource)
| Exit (r : Resource)
| Prompt (text : string)
| Print (text : string)
| RunWorkflow (message : string).

Inductive ReplError (E : Type) :=
| EOFError
| EnterFailed (r : Resource)
| WorkflowRaised (e : RunError E).
Arguments EOFError {E}.
Arguments EnterFailed {E} r.
Arguments WorkflowRaised {E} e.

Definition newline : string := String.String (Ascii.ascii_of_nat 10) "".

(** [print(f"Agent: {event.data}\n")]. *)
Definition agent_line (data : string) : ReplEffect :=
  Print ("Agent: " +:+ data +:+ newline).

Section Repl.
Context {E : Type} `{!AgentService E}.
Variable workflow : Workflow.
Variable connect : Resource → bool.

(** [async with r1, ..., rn: body]. *)
Fixpoint with_resources (rs : list Resource)
    (body : list ReplEffect * option (ReplError E)) : list ReplEffect * option (ReplError E) :=
  match rs with
  | [] => body
  | r :: rs' =>
      if connect r then
        let '(t, res) := with_resources rs' body in
        (Enter r :: t ++ [Exit r], res)
      else ([], Some (EnterFailed r))
  end.

(** [while True:] over the remaining input lines. *)
Fixpoint repl_loop (inputs : list string) : list ReplEffect * option (ReplError E) :=
  match inputs with
  | [] => ([Prompt "You: "], Some EOFError)
  | line :: rest =>
      let user_input := py_strip line in
      if py_falsy user_input then
        let '(t, r) := repl_loop rest in (Prompt "You: " :: t, r)
      else if is_exit_command user_input then
        ([Prompt "You: "; Print "Goodbye!"], None)
      else
        let '(evs, err) := run_stream workflow user_input in
        let printed := agent_line <$> workflow_outputs evs in
        match err with
        | Some e => (Prompt "You: " :: RunWorkflow user_input :: printed, Some (WorkflowRaised e))
        | None =>
            let '(t, r) := repl_loop rest in
            (Prompt "You: " :: RunWorkflow user_input :: printed ++ t, r)
        end
  end.

Definition repl_resources (mcp_tool : MCPStreamableHTTPTool)
    (rewrite_agent docs_agent summarize_agent : ChatAgent) : list Resource :=
  [ToolResource mcp_tool; AgentResource rewrite_agent; AgentResource docs_agent;
   AgentResource summarize_agent].

(** [repl()]. *)
Definition repl (mcp_tool : MCPStreamableHTTPTool) (rewrite_agent docs_agent summarize_agent : ChatAgent)
    (inputs : list string) : list ReplEffect * option (ReplError E) :=
  with_resources (repl_resources mcp_tool rewrite_agent docs_agent summarize_agent)
    (repl_loop inputs).

(** The resources whose entry succeeds before the first failing one. *)
Fixpoint connected_prefix (rs : list Resource) : list Resource :=
  match rs with
  | [] => []
  | r :: rs' => if connect r then r :: connected_prefix rs' else []
  end.
End Repl.

Definition is_resource_effect (e : ReplEffect) : bool :=
  match e with Enter _ | Exit _ => true | _ => false end.

(** The [async with] entries and exits of a trace. *)
Definition resource_trace (t : list ReplEffect) : list ReplEffect :=
  filter (λ e, is_resource_effect e = true) t.

(** The messages handed to the workflow, in order. *)
Definition runs_of (t : list ReplEffect) : list string :=
  omap (λ e, match e with RunWorkflow m => Some m | _ => None end) t.

(** The spec's reading of the input: blank lines are skipped, an exit
    command ends the session, every other line is a query. *)
Fixpoint queries (inputs : list string) : list string :=
  match inputs with
  | [] => []
  | line :: rest =>
      let u := py_strip line in
      if py_falsy u then queries rest
      else if is_exit_command u then []
      else u :: queries rest
  end.

(** Whether the loop meets an exit command before the input ends. *)
Fixpoint exits (inputs : list string) : bool :=
  match inputs with
  | [] => false
  | line :: rest =>
      let u := py_strip line in
      if py_falsy u then exits rest else if is_exit_command u then true else exits rest
  end.

(** The text a trace prints. *)
Definition prints_of (t : list ReplEffect) : list string :=
  omap (λ e, match e with Print s => Some s | _ => None end) t.

(** The repository's workflow built on [example_client]. *)
Definition example_workflow : Workflow :=
  match create_documentation_workflow (create_rewrite_agent example_client)
          (create_docs_agent example_client).1 (create_summarize_agent example_client) with
  | Ok w => w
  | Err _ => {| wf_executors := ∅; wf_edges := []; wf_start := "" |}
  end.

Definition scenario_query : string := "  wut is Azure Blob torage ".

(** ** Lemmas *)

Section ReplFacts.
Context {E : Type} `{!AgentService E}.

Lemma resource_trace_app t1 t2 : resource_trace (t1 ++ t2) = resource_trace t1 ++ resource_trace t2.
Proof. apply filter_app. Qed.

Lemma resource_trace_cons e t :
  resource_trace (e :: t) = (if is_resource_effect e then [e] else []) ++ resource_trace t.
Proof. unfold resource_trace. rewrite filter_cons. by destruct (is_resource_effect e). Qed.

Lemma resource_trace_printed ds : resource_trace (agent_line <$> ds) = [].
Proof. induction ds; [done|]. by rewrite fmap_cons, resource_trace_cons. Qed.

Lemma runs_of_printed ds : runs_of (agent_line <$> ds) = [].
Proof. induction ds; [done|]. by rewrite fmap_cons. Qed.

Lemma repl_loop_no_resources w inputs : resource_trace (@repl_loop E _ w inputs).1 = [].
Proof.
  induction inputs as [|l rest IH]; cbn [repl_loop]; [done|].
  destruct (repl_loop w rest) as [t r]. cbn [fst] in IH.
  destruct (py_falsy _); [|destruct (is_exit_command _)];
    [|done|destruct (run_stream w _) as [evs [e|]]]; cbn [fst];
    by rewrite !resource_trace_cons, ?resource_trace_app, ?resource_trace_printed, ?IH.
Qed.

Lemma with_resources_trace connect rs (body : list ReplEffect * option (ReplError E)) :
  resource_trace body.1 = [] →
  resource_trace (with_resources connect rs body).1 =
    (Enter <$> connected_prefix connect rs) ++ (Exit <$> reverse (connected_prefix connect rs)).
Proof.
  intros Hb. induction rs as [|r rs IH]; simpl; [done|].
  destruct (connect r); [|done].
  destruct (with_resources connect rs body) as [t res]. simpl in *.
  unfold resource_trace in *. rewrite filter_cons_True by done. rewrite filter_app, IH.
  rewrite filter_cons_True by done. rewrite filter_nil, reverse_cons, fmap_app. simpl.
  by rewrite <-app_assoc.
Qed.


Lemma runs_of_app t1 t2 : runs_of (t1 ++ t2) = runs_of t1 ++ runs_of t2.
Proof. apply omap_app. Qed.

Lemma runs_of_cons e t :
  runs_of (e :: t) = match e with RunWorkflow m => [m] | _ => [] end ++ runs_of t.
Proof. by destruct e. Qed.

Lemma prints_of_app t1 t2 : prints_of (t1 ++ t2) = prints_of t1 ++ prints_of t2.
Proof. apply omap_app. Qed.

Lemma prints_of_cons e t :
  prints_of (e :: t) = match e with Print s => [s] | _ => [] end ++ prints_of t.
Proof. by destruct e. Qed.

(** On a workflow whose runs are the pipeline of [agents], a session in
    which no query fails prints one answer per query, in order, and ends
    at the exit command or at the end of the input. *)
Lemma repl_loop_all_answered agents w :
  (∀ x, workflow_outputs (@run_stream E _ w x).1 = run_outputs (pipeline agents x) ∧
        (run_stream w x).2 = run_status (pipeline agents x)) →
  ∀ inputs ys, mapM (pipeline agents) (queries inputs) = Ok ys →
  prints_of (repl_loop w inputs).1 =
    ((λ y, "Agent: " +:+ y +:+ newline) <$> ys) ++ (if exits inputs then ["Goodbye!"] else []) ∧
  (repl_loop w inputs).2 = if exits inputs then None else Some EOFError.
Proof.
  intros Hrun inputs. induction inputs as [|l rest IH]; intros ys; cbn [repl_loop queries exits].
  { intros [= <-]. done. }
  destruct (py_falsy _); [|destruct (is_exit_command _)].
  - intros Hq. destruct (IH _ Hq) as [Hp Hs].
    destruct (repl_loop w rest) as [t r]. done.
  - intros [= <-]. done.
  - intros (y & ys' & Hy & Hq & ->)%mapM_cons_Ok. destruct (IH _ Hq) as [Hp Hs].
    destruct (Hrun (py_strip l)) as [Ho Hst].
    destruct (run_stream w (py_strip l)) as [evs err]. cbn [fst snd] in Ho, Hst.
    rewrite Hy in Ho, Hst. subst err. rewrite Ho.
    destruct (repl_loop w rest) as [t r]. cbn [fst snd run_status run_outputs] in *.
    split; [|done]. rewrite !prints_of_cons. cbn [fmap list_fmap app].
    by rewrite prints_of_cons, Hp.
Qed.

(** C4: on every way out of [repl] (an exit command, the end of the input,
    an exception of a run, a failed entry) the [async with] statement
    exits exactly the resources it entered, each once, in the reverse order
    of their entry; when every entry succeeds these are the MCP tool and
    the three agents. *)
Theorem repl_resources_released connect w mcp_tool r d s inputs :
  resource_trace (@repl E _ w connect mcp_tool r d s inputs).1 =
    (Enter <$> connected_prefix connect (repl_resources mcp_tool r d s)) ++
    (Exit <$> reverse (connected_prefix connect (repl_resources mcp_tool r d s))).
Proof. apply with_resources_trace, repl_loop_no_resources. Qed.

(** C24: the lines the loop hands to the workflow are the spec's queries:
    stripped, blank lines skipped, nothing after an exit command; a run
    that raises cuts the list short, and otherwise every query runs, in
    input order and one at a time. *)
Theorem repl_runs_queries w inputs :
  runs_of (@repl_loop E _ w inputs).1 `prefix_of` queries inputs ∧
  ((∀ e, (@repl_loop E _ w inputs).2 ≠ Some (WorkflowRaised e)) →
   runs_of (@repl_loop E _ w inputs).1 = queries inputs).
Proof.
  induction inputs as [|l rest [IHp IHe]]; cbn [repl_loop queries]; [done|].
  destruct (py_falsy _); [|destruct (is_exit_command _)].
  - destruct (repl_loop w rest) as [t r]. cbn [fst snd] in *. by rewrite runs_of_cons.
  - split; [apply prefix_nil|done].
  - destruct (run_stream w _) as [evs [e|]]; cbn [fst snd].
    + rewrite !runs_of_cons, ?runs_of_printed. split; [|by intros H; destruct (H e)].
      simpl. apply prefix_cons, prefix_nil.
    + destruct (repl_loop w rest) as [t r]. cbn [fst snd] in *.
      rewrite !runs_of_cons, runs_of_app, ?runs_of_printed. simpl.
      split; [by apply prefix_cons|]. intros H. by rewrite IHe.
Qed.

(** C5: an exception of the workflow run is not caught by the loop: the
    session ends at the failing line with that error and the remaining
    input is never read, whereas spec section 7 asks the runner to report
    the error and keep the session going. *)
Theorem repl_failed_run_ends_session w line rest e :
  py_falsy (py_strip line) = false → is_exit_command (py_strip line) = false →
  (@run_stream E _ w (py_strip line)).2 = Some e →
  repl_loop w (line :: rest) =
    (Prompt "You: " :: RunWorkflow (py_strip line) ::
       (agent_line <$> workflow_outputs (run_stream w (py_strip line)).1),
     Some (WorkflowRaised e)).
Proof.
  intros Hf Hx He. cbn [repl_loop]. rewrite Hf, Hx.
  destruct (run_stream w (py_strip line)) as [evs r]. cbn [snd] in He. by subst r.
Qed.

(** C1: a query line on the repository's workflow prints exactly one line,
    [Agent: ] followed by summarize(docs(rewrite(query))), and the loop
    goes on with the next line; when an agent fails nothing is printed
    and the session ends with that agent's error. *)
Theorem repl_turn_answer c :
  let agents := [create_rewrite_agent c; (create_docs_agent c).1; create_summarize_agent c] in
  ∃ w, create_documentation_workflow (create_rewrite_agent c) (create_docs_agent c).1
         (create_summarize_agent c) = Ok w ∧
  ∀ line rest, py_falsy (py_strip line) = false → is_exit_command (py_strip line) = false →
    @repl_loop E _ w (line :: rest) =
      match pipeline agents (py_strip line) with
      | Ok y => (Prompt "You: " :: RunWorkflow (py_strip line) :: agent_line y :: (repl_loop w rest).1,
                 (repl_loop w rest).2)
      | Err (n, e) => ([Prompt "You: "; RunWorkflow (py_strip line)],
                       Some (WorkflowRaised (ExecutorError n e)))
      end.
Proof.
  intros agents. rewrite documentation_builder_linear.
  destruct (linear_pipeline_run agents) as (w & Hw & Hrun);
    [discriminate|apply documentation_agents_distinct|unfold max_iterations; simpl; lia|].
  exists w. split; [done|]. intros line rest Hf Hx. cbn [repl_loop]. rewrite Hf, Hx.
  destruct (Hrun (py_strip line)) as [Ho Hs].
  destruct (run_stream w (py_strip line)) as [evs r]. cbn [fst snd] in Ho, Hs.
  rewrite Ho. subst r. destruct (pipeline agents _) as [y|[n e]]; simpl; [|done].
  by destruct (repl_loop w rest).
Qed.
(** C12: liveness of the session on the repository's workflow: when no
    agent fails on any query, every query gets its answer
    summarize(docs(rewrite(query))) printed, in input order, one line
    each, and the session then ends, with [Goodbye!] at an exit command
    and with [EOFError] at the end of the input otherwise. *)
Theorem repl_answers_every_query c :
  let agents := [create_rewrite_agent c; (create_docs_agent c).1; create_summarize_agent c] in
  ∃ w, create_documentation_workflow (create_rewrite_agent c) (create_docs_agent c).1
         (create_summarize_agent c) = Ok w ∧
  ∀ inputs ys, mapM (pipeline agents) (queries inputs) = Ok ys →
    prints_of (@repl_loop E _ w inputs).1 =
      ((λ y, "Agent: " +:+ y +:+ newline) <$> ys) ++ (if exits inputs then ["Goodbye!"] else []) ∧
    (repl_loop w inputs).2 = if exits inputs then None else Some EOFError.
Proof.
  intros agents. rewrite documentation_builder_linear.
  destruct (linear_pipeline_run agents) as (w & Hw & Hrun);
    [discriminate|apply documentation_agents_distinct|unfold max_iterations; simpl; lia|].
  exists w. split; [done|]. by apply repl_loop_all_answered.
Qed.
End ReplFacts.

(** ** Witnesses *)

Lemma repl_failed_run_ends_session_witness :
  py_falsy (py_strip scenario_query) = false ∧ is_exit_command (py_strip scenario_query) = false ∧
  (@run_stream _ docs_down_service example_workflow (py_strip scenario_query)).2 =
    Some (ExecutorError "microsoft-docs-agent" "UpstreamServiceError") ∧
  @repl_loop _ docs_down_service example_workflow [scenario_query; "What is AKS?"] =
    (Prompt "You: " :: RunWorkflow (py_strip scenario_query) ::
       (agent_line <$> workflow_outputs (@run_stream _ docs_down_service example_workflow (py_strip scenario_query)).1),
     Some (WorkflowRaised (ExecutorError "microsoft-docs-agent" "UpstreamServiceError"))).
Proof.
  assert (Hf : py_falsy (py_strip scenario_query) = false) by reflexivity.
  assert (Hx : is_exit_command (py_strip scenario_query) = false) by (vm_compute; reflexivity).
  assert (He : (@run_stream _ docs_down_service example_workflow (py_strip scenario_query)).2 =
    Some (ExecutorError "microsoft-docs-agent" "UpstreamServiceError")) by (vm_compute; reflexivity).
  split_and!; [exact Hf|exact Hx|exact He|].
  exact (@repl_failed_run_ends_session _ docs_down_service _ _ _ _ Hf Hx He).
Defined.

Lemma repl_turn_answer_witness :
  py_falsy (py_strip scenario_query) = false ∧ is_exit_command (py_strip scenario_query) = false ∧
  ∃ w, create_documentation_workflow (create_rewrite_agent example_client)
         (create_docs_agent example_client).1 (create_summarize_agent example_client) = Ok w ∧
    (@repl_loop _ echo_service w [scenario_query]).1 =
      [Prompt "You: "; RunWorkflow "wut is Azure Blob torage";
       agent_line "summarize-agent: microsoft-docs-agent: rewrite-agent: wut is Azure Blob torage";
       Prompt "You: "].
Proof.
  assert (Hf : py_falsy (py_strip scenario_query) = false) by reflexivity.
  assert (Hx : is_exit_command (py_strip scenario_query) = false) by (vm_compute; reflexivity).
  split_and!; [exact Hf|exact Hx|].
  destruct (@repl_turn_answer _ echo_service example_client) as (w & Hw & Hturn).
  exists w. split; [exact Hw|]. rewrite (Hturn _ [] Hf Hx). vm_compute. reflexivity.
Defined.

Lemma repl_answers_every_query_witness :
  let inputs := [scenario_query; "   "; "What is AKS?"; " Quit"; "ignored"] in
  let agents := [create_rewrite_agent example_client; (create_docs_agent example_client).1;
                 create_summarize_agent example_client] in
  ∃ w ys, @mapM (result (string * string)) _ _ _ _ (@pipeline _ echo_service agents) (queries inputs) = Ok ys ∧
    prints_of (@repl_loop _ echo_service w inputs).1 =
      ["Agent: summarize-agent: microsoft-docs-agent: rewrite-agent: wut is Azure Blob torage" +:+ newline;
       "Agent: summarize-agent: microsoft-docs-agent: rewrite-agent: What is AKS?" +:+ newline;
       "Goodbye!"].
Proof.
  intros inputs agents.
  destruct (@repl_answers_every_query _ echo_service example_client) as (w & _ & Hall).
  assert (Hq : @mapM (result (string * string)) _ _ _ _ (@pipeline _ echo_service agents) (queries inputs) =
    Ok ["summarize-agent: microsoft-docs-agent: rewrite-agent: wut is Azure Blob torage";
        "summarize-agent: microsoft-docs-agent: rewrite-agent: What is AKS?"]) by (vm_compute; reflexivity).
  eexists w, _. split; [exact Hq|]. rewrite (proj1 (Hall _ _ Hq)). vm_compute. reflexivity.
Defined.
