(* ===== verification/Main.v ===== *)
(** * Start-up: configuration, [create_workflow] and the [MODE] dispatch

    Models the module-level [MODE] lookup, [create_workflow] and [main] of
    [src/main.py], and the same three pieces of the nested variant
    [src/src/agents-in-workflow/main.py] with its monkey patch of
    [Workflow.run_stream].

    - The process environment is a [gmap string string]; [load_dotenv
      (override=True)] overwrites it with the entries of the [.env] file
      (stdpp's left-biased union), and [os.getenv] is a lookup.
    - [MODE] is read when the module is imported, before [main] calls
      [create_workflow] and so before [.env] is loaded.
    - [create_workflow] fails with [RuntimeError] on a missing or empty
      endpoint (and, in the root variant, API key), builds the client, the
      three agents and the workflow otherwise; a builder error would raise
      too.
    - [main] dispatches on [MODE]: the hosted agent, the CLI banner and
      [repl], the dev UI with its four entities, or nothing for any other
      value. *)

From S2P Require Import Prelude PyStr Agents Workflow Repl.

(** ** Definitions *)

Abbreviation Env := (gmap string string).

(** [os.getenv(key, default)]. *)
Definition getenv_default (env : Env) (key default_value : string) : string :=
  default default_value (env !! key).

(** [load_dotenv(override=True)]: the [.env] entries win. *)
Definition load_dotenv (dotenv env : Env) : Env := dotenv ∪ env.

(** Python truthiness of [os.getenv(key)]: [None] and [""] are falsy. *)
Definition py_truthy_opt (o : option string) : bool :=
  match o with Some s => negb (py_falsy s) | None => false end.

(** [f"{x}"] of an optional string: [None] prints as [None]. *)
Definition py_str_opt (o : option string) : string :=
  match o with Some s => s | None => "None" end.

Inductive StartupError :=
| RuntimeError (msg : string)
| WorkflowBuildFailed (e : BuildError).

(** The tuple [create_workflow] returns. *)
Record AppObjects := {
  app_workflow : Workflow;
  app_rewrite_agent : ChatAgent;
  app_docs_agent : ChatAgent;
  app_summarize_agent : ChatAgent;
  app_mcp_tool : MCPStreamableHTTPTool;
}.

(** The agents, the tool and the workflow built on one client. *)
Definition build_app (chat_client : AzureOpenAIResponsesClient) : result StartupError AppObjects :=
  let rewrite_agent := create_rewrite_agent chat_client in
  let '(docs_agent, mcp_tool) := create_docs_agent chat_client in
  let summarize_agent := create_summarize_agent chat_client in
  match create_documentation_workflow rewrite_agent docs_agent summarize_agent with
  | Ok workflow =>
      Ok {| app_workflow := workflow; app_rewrite_agent := rewrite_agent;
            app_docs_agent := docs_agent; app_summarize_agent := summarize_agent;
            app_mcp_tool := mcp_tool |}
  | Err e => Err (WorkflowBuildFailed e)
  end.

(** [create_workflow] of [src/main.py]: it returns the environment after
    [load_dotenv] with its result. *)
Definition create_workflow (dotenv env : Env) : Env * result StartupError AppObjects :=
  let env := load_dotenv dotenv env in
  let endpoint := env !! "AZURE_OPENAI_ENDPOINT" in
  let api_key := env !! "AZURE_OPENAI_API_KEY" in
  let deployment := env !! "AZURE_OPENAI_RESPONSES_DEPLOYMENT_NAME" in
  if negb (py_truthy_opt endpoint) || negb (py_truthy_opt api_key) then
    (env, Err (RuntimeError "AZURE_OPENAI_ENDPOINT and AZURE_OPENAI_API_KEY must be set in .env"))
  else
    let chat_client := {| client_endpoint := default "" endpoint;
                          client_deployment_name := deployment;
                          client_credential := ApiKey (default "" api_key) |} in
    (env, build_app chat_client).

(** The start-up line the nested variant prints; the key is masked. *)
Definition loaded_env_line (endpoint deployment api_key : option string) : string :=
  "Loaded environment variables: ENDPOINT=" +:+ py_str_opt endpoint +:+
  ", DEPLOYMENT=" +:+ py_str_opt deployment +:+
  ", API_KEY=" +:+ (if py_truthy_opt api_key then "***" else "None").

(** [create_workflow] of [src/src/agents-in-workflow/main.py]: it prints
    the line above, checks only the endpoint and authenticates with
    [DefaultAzureCredential]. *)
Definition create_workflow_nested (dotenv env : Env)
    : list string * Env * result StartupError AppObjects :=
  let env := load_dotenv dotenv env in
  let endpoint := env !! "AZURE_OPENAI_ENDPOINT" in
  let api_key := env !! "AZURE_OPENAI_API_KEY" in
  let deployment := env !! "AZURE_OPENAI_RESPONSES_DEPLOYMENT_NAME" in
  let printed := [loaded_env_line endpoint deployment api_key] in
  if negb (py_truthy_opt endpoint) then
    (printed, env, Err (RuntimeError "AZURE_OPENAI_ENDPOINT must be set in .env"))
  else
    let chat_client := {| client_endpoint := default "" endpoint;
                          client_deployment_name := deployment;
                          client_credential := DefaultAzureCredential |} in
    (printed, env, build_app chat_client).

(** The entities handed to the dev UI's [serve]. *)
Inductive Entity :=
| WorkflowEntity (w : Workflow)
| AgentEntity (a : ChatAgent).

(** What [main] starts after its banner. *)
Inductive MainOutcome :=
| StartupRaised (e : StartupError)
| HostedAgent (w : Workflow)
| CliSession (app : AppObjects)
| DevUI (entities : list Entity) (auto_open : bool)
| Returned.

(** [MODE = os.getenv("MODE", ...)] at import time. *)
Definition MODE (process_env : Env) : string := getenv_default process_env "MODE" "cli".
Definition MODE_nested (process_env : Env) : string := getenv_default process_env "MODE" "devui".

(** The [if]/[elif] chain of [main] on a created application. *)
Definition dispatch (mode : string) (app : AppObjects) : list string * MainOutcome :=
  if bool_decide (mode = "hosted_agent") then
    (["Starting in Hosted Agent mode..."], HostedAgent (app_workflow app))
  else if bool_decide (mode = "cli") then
    (["Starting in CLI mode...";
      "Microsoft Docs Agent Workflow. Ask a question about Microsoft services.";
      "Type 'exit' to quit." +:+ newline], CliSession app)
  else if bool_decide (mode = "devui") then
    (["Starting in Dev UI mode...";
      "Microsoft Docs Agent Workflow. Dev UI will open in your browser."],
     DevUI [WorkflowEntity (app_workflow app); AgentEntity (app_rewrite_agent app);
            AgentEntity (app_docs_agent app); AgentEntity (app_summarize_agent app)] true)
  else ([], Returned).

(** [main()] of [src/main.py]: [process_env] is the environment the module
    was imported in, [dotenv] the [.env] file. *)
Definition main (process_env dotenv : Env) : list string * MainOutcome :=
  let mode := MODE process_env in
  match (create_workflow dotenv process_env).2 with
  | Err e => ([], StartupRaised e)
  | Ok app => dispatch mode app
  end.

Definition main_nested (process_env dotenv : Env) : list string * MainOutcome :=
  let mode := MODE_nested process_env in
  let '(printed, _, r) := create_workflow_nested dotenv process_env in
  match r with
  | Err e => (printed, StartupRaised e)
  | Ok app => let '(out, o) := dispatch mode app in (printed ++ out, o)
  end.

(** [patched_run_stream(self, message, **kwargs)]: the extra keyword
    arguments (a checkpoint storage) are dropped and the original
    [run_stream] is called on the message. *)
Definition patched_run_stream {E} `{!AgentService E} (w : Workflow) (message : string)
    (kwargs : list (string * string)) : list (WorkflowEvent E) * option (RunError E) :=
  run_stream w message.

(** The client [create_workflow] builds from the merged environment. *)
Definition env_client (env : Env) : AzureOpenAIResponsesClient := {|
  client_endpoint := default "" (env !! "AZURE_OPENAI_ENDPOINT");
  client_deployment_name := env !! "AZURE_OPENAI_RESPONSES_DEPLOYMENT_NAME";
  client_credential := ApiKey (default "" (env !! "AZURE_OPENAI_API_KEY"));
|}.

(** The application [build_app] returns on a client. *)
Definition app_of (c : AzureOpenAIResponsesClient) (w : Workflow) : AppObjects := {|
  app_workflow := w; app_rewrite_agent := create_rewrite_agent c;
  app_docs_agent := (create_docs_agent c).1; app_summarize_agent := create_summarize_agent c;
  app_mcp_tool := (create_docs_agent c).2;
|}.

(** Credentials present after [load_dotenv]. *)
Definition has_credentials (process_env dotenv : Env) : bool :=
  py_truthy_opt (load_dotenv dotenv process_env !! "AZURE_OPENAI_ENDPOINT") &&
  py_truthy_opt (load_dotenv dotenv process_env !! "AZURE_OPENAI_API_KEY").

(** A [.env] file with the service settings and a [MODE] entry. *)
Definition example_dotenv : Env :=
  {[ "AZURE_OPENAI_ENDPOINT" := "https://example.openai.azure.com/";
     "AZURE_OPENAI_API_KEY" := "secret";
     "AZURE_OPENAI_RESPONSES_DEPLOYMENT_NAME" := "gpt-4.1";
     "MODE" := "devui" ]}.

(** A process environment with a [MODE] the dispatch does not know. *)
Definition server_env : Env := {[ "MODE" := "server" ]}.

(** ** Lemmas *)

Lemma lookup_load_dotenv dotenv env k :
  load_dotenv dotenv env !! k = match dotenv !! k with Some v => Some v | None => env !! k end.
Proof. unfold load_dotenv. rewrite lookup_union. by destruct (dotenv !! k), (env !! k). Qed.

Lemma load_dotenv_insert_ne dotenv env k k' v :
  k ≠ k' → load_dotenv (<[k:=v]> dotenv) env !! k' = load_dotenv dotenv env !! k'.
Proof. intros Hne. rewrite !lookup_load_dotenv. by rewrite lookup_insert_ne. Qed.

(** C23: [MODE] is read when the module is imported, before [create_workflow]
    loads [.env]: a [MODE] entry of the [.env] file never changes what
    [main] does, although the other settings are taken from that file. *)
Theorem mode_read_before_dotenv process_env dotenv m :
  main process_env (<["MODE" := m]> dotenv) = main process_env dotenv.
Proof.
  unfold main, create_workflow. cbv zeta.
  rewrite !(load_dotenv_insert_ne dotenv process_env "MODE") by done.
  by destruct (negb _ || negb _).
Qed.


Lemma build_app_ok c :
  ∃ w, build_app c = Ok (app_of c w) ∧
    create_documentation_workflow (create_rewrite_agent c) (create_docs_agent c).1
      (create_summarize_agent c) = Ok w.
Proof.
  destruct (documentation_workflow_Ok c) as [w Hw]. exists w. split; [|done].
  unfold build_app. cbn [create_docs_agent fst snd] in Hw |- *. by rewrite Hw.
Qed.

Lemma create_workflow_ok process_env dotenv :
  has_credentials process_env dotenv = true →
  (create_workflow dotenv process_env).2 = build_app (env_client (load_dotenv dotenv process_env)).
Proof.
  unfold has_credentials, create_workflow. cbv zeta. intros [-> ->]%andb_true_iff. done.
Qed.

Lemma create_workflow_no_credentials process_env dotenv :
  has_credentials process_env dotenv = false →
  (create_workflow dotenv process_env).2 =
    Err (RuntimeError "AZURE_OPENAI_ENDPOINT and AZURE_OPENAI_API_KEY must be set in .env").
Proof.
  unfold has_credentials, create_workflow. cbv zeta. intros Hc.
  apply andb_false_iff in Hc as [-> | ->]; [done|]. by rewrite orb_true_r.
Qed.

Lemma main_ok process_env dotenv :
  has_credentials process_env dotenv = true →
  ∃ w, main process_env dotenv =
         dispatch (MODE process_env) (app_of (env_client (load_dotenv dotenv process_env)) w).
Proof.
  intros Hc. unfold main. rewrite create_workflow_ok by done.
  destruct (build_app_ok (env_client (load_dotenv dotenv process_env))) as (w & -> & _).
  by exists w.
Qed.

(** C14: without an endpoint or an API key (absent or empty after [.env] is
    loaded) [main] raises [RuntimeError] before building any agent, in
    every mode; the nested variant raises likewise without an endpoint. *)
Theorem main_requires_credentials process_env dotenv :
  has_credentials process_env dotenv = false →
  main process_env dotenv =
    ([], StartupRaised (RuntimeError "AZURE_OPENAI_ENDPOINT and AZURE_OPENAI_API_KEY must be set in .env")).
Proof. intros Hc. unfold main. by rewrite create_workflow_no_credentials. Qed.

(** C16: with an endpoint and an API key, [create_workflow] builds the three
    agents on one client made of that endpoint, the deployment setting and
    the key; the tool it returns, which the CLI later opens, is the very
    tool the docs agent holds; and the workflow is the documentation
    workflow of those agents. *)
Theorem create_workflow_shares_client process_env dotenv :
  has_credentials process_env dotenv = true →
  let c := env_client (load_dotenv dotenv process_env) in
  ∃ app, (create_workflow dotenv process_env).2 = Ok app ∧
    chat_client (app_rewrite_agent app) = c ∧ chat_client (app_docs_agent app) = c ∧
    chat_client (app_summarize_agent app) = c ∧
    agent_tools (app_docs_agent app) = [app_mcp_tool app] ∧
    create_documentation_workflow (app_rewrite_agent app) (app_docs_agent app)
      (app_summarize_agent app) = Ok (app_workflow app).
Proof.
  intros Hc c. rewrite create_workflow_ok by done. fold c.
  destruct (build_app_ok c) as (w & -> & Hw). eexists; split_and!; [done..|exact Hw].
Qed.

(** C21: when [MODE] is not set in the process environment, [src/main.py]
    starts the CLI and the nested variant the dev UI; the spec (section 6)
    and the comment of [src/main.py] name the dev UI as the default. *)
Theorem main_default_mode process_env dotenv :
  process_env !! "MODE" = None → has_credentials process_env dotenv = true →
  (∃ app, (main process_env dotenv).2 = CliSession app) ∧
  (∃ ents, (main_nested process_env dotenv).2 = DevUI ents true).
Proof.
  intros Hm Hc. unfold MODE, MODE_nested, getenv_default. split.
  - destruct (main_ok process_env dotenv Hc) as [w ->]. unfold MODE, getenv_default.
    rewrite Hm. by eexists.
  - unfold main_nested, create_workflow_nested. cbv zeta.
    unfold has_credentials in Hc. apply andb_true_iff in Hc as [He _]. rewrite He. simpl negb.
    cbv iota. destruct (build_app_ok {| client_endpoint := default "" (load_dotenv dotenv process_env !! "AZURE_OPENAI_ENDPOINT");
        client_deployment_name := load_dotenv dotenv process_env !! "AZURE_OPENAI_RESPONSES_DEPLOYMENT_NAME";
        client_credential := DefaultAzureCredential |}) as (w & -> & _).
    unfold MODE_nested, getenv_default. rewrite Hm. by eexists.
Qed.

(** C27: a [MODE] other than [hosted_agent], [cli] and [devui] makes [main]
    build the whole application and return without serving anything and
    without a message. *)
Theorem main_unknown_mode process_env dotenv :
  MODE process_env ∉ ["hosted_agent"; "cli"; "devui"] → has_credentials process_env dotenv = true →
  main process_env dotenv = ([], Returned).
Proof.
  intros Hm Hc. destruct (main_ok process_env dotenv Hc) as [w ->]. unfold dispatch.
  rewrite !bool_decide_eq_false_2 by set_solver. done.
Qed.

(** C28: the start-up line of the nested variant does not depend on the API
    key: any two non-empty keys print the same line. *)
Theorem startup_log_masks_key dotenv env k1 k2 :
  k1 ≠ "" → k2 ≠ "" →
  (create_workflow_nested (<["AZURE_OPENAI_API_KEY" := k1]> dotenv) env).1.1 =
  (create_workflow_nested (<["AZURE_OPENAI_API_KEY" := k2]> dotenv) env).1.1.
Proof.
  intros H1 H2. unfold create_workflow_nested. cbv zeta.
  rewrite !(load_dotenv_insert_ne _ env "AZURE_OPENAI_API_KEY" "AZURE_OPENAI_ENDPOINT"),
    !(load_dotenv_insert_ne _ env "AZURE_OPENAI_API_KEY" "AZURE_OPENAI_RESPONSES_DEPLOYMENT_NAME")
    by done.
  rewrite !lookup_load_dotenv, !lookup_insert_eq.
  destruct (negb _); simpl; unfold loaded_env_line; simpl;
    destruct k1, k2; done.
Qed.

(** ** Witnesses *)

Lemma main_requires_credentials_witness :
  has_credentials ∅ {[ "AZURE_OPENAI_ENDPOINT" := "https://example.openai.azure.com/";
                       "AZURE_OPENAI_API_KEY" := "" ]} = false ∧
  main ∅ {[ "AZURE_OPENAI_ENDPOINT" := "https://example.openai.azure.com/";
            "AZURE_OPENAI_API_KEY" := "" ]} =
    ([], StartupRaised (RuntimeError "AZURE_OPENAI_ENDPOINT and AZURE_OPENAI_API_KEY must be set in .env")).
Proof.
  assert (H : has_credentials ∅ {[ "AZURE_OPENAI_ENDPOINT" := "https://example.openai.azure.com/";
                                   "AZURE_OPENAI_API_KEY" := "" ]} = false) by (vm_compute; reflexivity).
  split; [exact H|]. exact (main_requires_credentials _ _ H).
Defined.

Lemma create_workflow_shares_client_witness :
  has_credentials ∅ example_dotenv = true ∧
  ∃ app, (create_workflow example_dotenv ∅).2 = Ok app ∧
    chat_client (app_docs_agent app) = env_client (load_dotenv example_dotenv ∅) ∧
    agent_tools (app_docs_agent app) = [app_mcp_tool app].
Proof.
  assert (H : has_credentials ∅ example_dotenv = true) by (vm_compute; reflexivity).
  split; [exact H|].
  destruct (create_workflow_shares_client _ _ H) as (app & Ha & _ & Hd & _ & Ht & _).
  exists app. split_and!; [exact Ha|exact Hd|exact Ht].
Defined.

Lemma main_default_mode_witness :
  (∅ : Env) !! "MODE" = None ∧ has_credentials ∅ example_dotenv = true ∧
  (∃ app, (main ∅ example_dotenv).2 = CliSession app) ∧
  (∃ ents, (main_nested ∅ example_dotenv).2 = DevUI ents true).
Proof.
  assert (Hm : (∅ : Env) !! "MODE" = None) by reflexivity.
  assert (H : has_credentials ∅ example_dotenv = true) by (vm_compute; reflexivity).
  split_and!; [exact Hm|exact H|exact (proj1 (main_default_mode _ _ Hm H))|exact (proj2 (main_default_mode _ _ Hm H))].
Defined.

Lemma main_unknown_mode_witness :
  (MODE server_env ∉ ["hosted_agent"; "cli"; "devui"]) ∧
  has_credentials server_env example_dotenv = true ∧
  main server_env example_dotenv = ([], Returned).
Proof.
  assert (Hm : MODE server_env ∉ ["hosted_agent"; "cli"; "devui"])
    by (apply (bool_decide_unpack _); vm_compute; reflexivity).
  assert (H : has_credentials server_env example_dotenv = true) by (vm_compute; reflexivity).
  split_and!; [exact Hm|exact H|exact (main_unknown_mode _ _ Hm H)].
Defined.

Lemma startup_log_masks_key_witness :
  ("secret-1" : string) ≠ "" ∧ ("secret-2" : string) ≠ "" ∧
  (create_workflow_nested (<["AZURE_OPENAI_API_KEY" := "secret-1"]> example_dotenv) ∅).1.1 =
  (create_workflow_nested (<["AZURE_OPENAI_API_KEY" := "secret-2"]> example_dotenv) ∅).1.1.
Proof.
  assert (H1 : ("secret-1" : string) ≠ "") by discriminate.
  assert (H2 : ("secret-2" : string) ≠ "") by discriminate.
  split_and!; [exact H1|exact H2|exact (startup_log_masks_key _ _ _ _ H1 H2)].
Defined.
