(* ===== verification/Program.v ===== *)
(** * The script as a whole: [main] with the CLI session it starts

    Composes [Main] and [Repl] the way the code does.  [main] of
    [src/main.py] runs [create_workflow], prints the banner of its mode
    and, in CLI mode, runs [asyncio.run(repl())] on the objects it built;
    an exception of the session propagates out of [main].  The module
    calls [main] only under [if __name__ == "__main__"]; importing it reads
    [MODE] and runs nothing.  The nested variant
    [src/src/agents-in-workflow/main.py] has the same guard.

    The trace of a run is the list of [ReplEffect]s: the banner lines are
    [Print]s, then the session's effects.  How a run ends is a
    [ProgramEnd]: [main] returned, start-up raised, the session raised
    (including [EOFError] at the end of the input), or the application was
    handed to the hosted-agent or dev UI server, whose behaviour is not
    modelled. *)

From S2P Require Import Prelude PyStr Agents Workflow Repl Main.

(** ** Definitions *)

Inductive ProgramEnd (E : Type) :=
| Finished
| StartupFailed (e : StartupError)
| SessionRaised (e : ReplError E)
| Serving (o : MainOutcome).
Arguments Finished {E}.
Arguments StartupFailed {E} e.
Arguments SessionRaised {E} e.
Arguments Serving {E} o.

Section Program.
Context {E : Type} `{!AgentService E}.
Variable connect : Resource → bool.

(** [main()]: the start-up and dispatch of [m], then [asyncio.run(repl())]
    on the application in CLI mode. *)
Definition run_main_with (m : Env → Env → list string * MainOutcome)
    (process_env dotenv : Env) (inputs : list string) : list ReplEffect * ProgramEnd E :=
  let '(out, o) := m process_env dotenv in
  let banner := Print <$> out in
  match o with
  | StartupRaised e => (banner, StartupFailed e)
  | CliSession app =>
      let '(t, r) := repl (app_workflow app) connect (app_mcp_tool app) (app_rewrite_agent app)
                       (app_docs_agent app) (app_summarize_agent app) inputs in
      (banner ++ t, match r with None => Finished | Some e => SessionRaised e end)
  | Returned => (banner, Finished)
  | o => (banner, Serving o)
  end.

(** [if __name__ == "__main__": main()]; [None] when the module is only
    imported. *)
Definition run_module_with (m : Env → Env → list string * MainOutcome) (name : string)
    (process_env dotenv : Env) (inputs : list string) : option (list ReplEffect * ProgramEnd E) :=
  if bool_decide (name = "__main__") then Some (run_main_with m process_env dotenv inputs) else None.

Definition run_module := run_module_with main.
Definition run_module_nested := run_module_with main_nested.
End Program.

(** The banner [main] prints in CLI mode. *)
Definition cli_banner : list string :=
  ["Starting in CLI mode...";
   "Microsoft Docs Agent Workflow. Ask a question about Microsoft services.";
   "Type 'exit' to quit." +:+ newline].

(** The banner [main] prints in dev UI mode. *)
Definition devui_banner : list string :=
  ["Starting in Dev UI mode...";
   "Microsoft Docs Agent Workflow. Dev UI will open in your browser."].

(** The client the nested variant's [create_workflow] builds from the
    merged environment. *)
Definition nested_client (env : Env) : AzureOpenAIResponsesClient := {|
  client_endpoint := default "" (env !! "AZURE_OPENAI_ENDPOINT");
  client_deployment_name := env !! "AZURE_OPENAI_RESPONSES_DEPLOYMENT_NAME";
  client_credential := DefaultAzureCredential;
|}.

(** The three agents [create_workflow] builds on a client. *)
Definition repo_agents (c : AzureOpenAIResponsesClient) : list ChatAgent :=
  [create_rewrite_agent c; (create_docs_agent c).1; create_summarize_agent c].

(** The resources the CLI session enters, on a client. *)
Definition repo_resources (c : AzureOpenAIResponsesClient) : list Resource :=
  repl_resources (create_docs_agent c).2 (create_rewrite_agent c) (create_docs_agent c).1
    (create_summarize_agent c).

(** ** Lemmas *)

Lemma dispatch_cli app : dispatch "cli" app = (cli_banner, CliSession app).
Proof. reflexivity. Qed.

(** When every entry succeeds, [async with] wraps the body in the entries
    and the exits in reverse. *)
Lemma with_resources_all {E} (connect : Resource → bool) rs (body : list ReplEffect * option (ReplError E)) :
  (∀ r, connect r = true) →
  with_resources connect rs body =
    ((Enter <$> rs) ++ body.1 ++ (Exit <$> reverse rs), body.2).
Proof.
  intros Hc. induction rs as [|r rs IH]; simpl.
  - destruct body as [t res]. by rewrite app_nil_r.
  - rewrite Hc, IH. simpl. rewrite reverse_cons, fmap_app. by rewrite <-!app_assoc.
Qed.

Lemma prints_of_resources (f : Resource → ReplEffect) rs :
  (∀ r, ∃ r', f r = Enter r' ∨ f r = Exit r') → prints_of (f <$> rs) = [].
Proof.
  intros Hf. induction rs as [|r rs IH]; [done|].
  rewrite fmap_cons, prints_of_cons, IH. by destruct (Hf r) as [? [-> | ->]].
Qed.

Lemma resource_trace_resources (f : Resource → ReplEffect) rs :
  (∀ r, is_resource_effect (f r) = true) → resource_trace (f <$> rs) = f <$> rs.
Proof.
  intros Hf. induction rs as [|r rs IH]; [done|].
  by rewrite fmap_cons, resource_trace_cons, IH, Hf.
Qed.

Lemma runs_of_fmap_nil {A} (f : A → ReplEffect) l :
  (∀ x m, f x ≠ RunWorkflow m) → runs_of (f <$> l) = [].
Proof.
  intros Hf. induction l as [|x l IH]; [done|].
  rewrite fmap_cons, runs_of_cons, IH. destruct (f x) as [| | | |m] eqn:E; try done.
  by destruct (Hf x m).
Qed.

Lemma resource_trace_prints ls : resource_trace (Print <$> ls) = [].
Proof. induction ls; [done|]. by rewrite fmap_cons, resource_trace_cons. Qed.

Lemma prints_of_prints ls : prints_of (Print <$> ls) = ls.
Proof. induction ls as [|l ls IH]; [done|]. by rewrite fmap_cons, prints_of_cons, IH. Qed.

(** The documentation workflow built on a client runs the pipeline of its
    three agents. *)
Lemma repo_workflow_pipeline {E} `{!AgentService E} c w :
  create_documentation_workflow (create_rewrite_agent c) (create_docs_agent c).1
    (create_summarize_agent c) = Ok w →
  ∀ x, workflow_outputs (run_stream w x).1 = run_outputs (pipeline (repo_agents c) x) ∧
       (run_stream w x).2 = run_status (pipeline (repo_agents c) x).
Proof.
  rewrite documentation_builder_linear. intros Hw.
  destruct (linear_pipeline_run (repo_agents c)) as (w' & Hw' & Hrun);
    [discriminate|apply documentation_agents_distinct|unfold max_iterations; simpl; lia|].
  unfold repo_agents in Hw'. rewrite Hw in Hw'. injection Hw' as <-. exact Hrun.
Qed.

(** With credentials and no [MODE] in the process environment, [main]
    starts the CLI on the application built from the merged environment. *)
Lemma main_cli process_env dotenv :
  process_env !! "MODE" = None → has_credentials process_env dotenv = true →
  let c := env_client (load_dotenv dotenv process_env) in
  ∃ w, create_documentation_workflow (create_rewrite_agent c) (create_docs_agent c).1
         (create_summarize_agent c) = Ok w ∧
       main process_env dotenv = (cli_banner, CliSession (app_of c w)).
Proof.
  intros Hm Hc c. unfold main. rewrite create_workflow_ok by done. fold c.
  destruct (build_app_ok c) as (w & -> & Hw). exists w. split; [done|].
  unfold MODE, getenv_default. by rewrite Hm.
Qed.

(** With credentials, no [MODE] and every connection open, running the
    script is the banner and the CLI loop inside the resources. *)
Lemma run_module_cli {E} `{!AgentService E} connect process_env dotenv inputs :
  process_env !! "MODE" = None → has_credentials process_env dotenv = true →
  (∀ r, connect r = true) →
  let c := env_client (load_dotenv dotenv process_env) in
  ∃ w, create_documentation_workflow (create_rewrite_agent c) (create_docs_agent c).1
         (create_summarize_agent c) = Ok w ∧
    run_module connect "__main__" process_env dotenv inputs =
      Some ((Print <$> cli_banner) ++ (Enter <$> repo_resources c) ++ (repl_loop w inputs).1 ++
              (Exit <$> reverse (repo_resources c)),
            match (repl_loop w inputs).2 with None => Finished | Some e => SessionRaised e end).
Proof.
  intros Hm Hc Hconn c.
  destruct (main_cli process_env dotenv Hm Hc) as (w & Hw & Hmain). fold c in Hw, Hmain.
  exists w. split; [exact Hw|].
  unfold run_module, run_module_with, run_main_with. rewrite bool_decide_eq_true_2 by done.
  rewrite Hmain. unfold repl. cbn [app_workflow app_mcp_tool app_rewrite_agent app_docs_agent
    app_summarize_agent app_of]. rewrite with_resources_all by done.
  by destruct (repl_loop w inputs).
Qed.

(** What such a trace prints and which resources it enters and exits. *)
Lemma cli_trace_views banner rs t :
  prints_of ((Print <$> banner) ++ (Enter <$> rs) ++ t ++ (Exit <$> reverse rs)) =
    banner ++ prints_of t ∧
  resource_trace ((Print <$> banner) ++ (Enter <$> rs) ++ t ++ (Exit <$> reverse rs)) =
    (Enter <$> rs) ++ resource_trace t ++ (Exit <$> reverse rs).
Proof.
  split.
  - rewrite !prints_of_app, prints_of_prints, !prints_of_resources by eauto.
    by rewrite ?app_nil_l, ?app_nil_r.
  - by rewrite !resource_trace_app, resource_trace_prints, !resource_trace_resources.
Qed.

(** ** The CLI program end to end *)

(** C2: running [src/main.py] as a script with credentials and no [MODE]
    in the process environment, when every connection opens and no agent
    fails on any query: the program prints the CLI banner, then one answer
    summarize(docs(rewrite(query))) per query in input order, then
    [Goodbye!] if an exit command comes; it enters the MCP tool and the
    three agents in order and exits them in reverse; and it ends normally
    at an exit command, or with the [EOFError] of [input()], which nothing
    catches, at the end of the input. *)
Theorem cli_program_session {E} `{!AgentService E} connect process_env dotenv inputs ys :
  process_env !! "MODE" = None → has_credentials process_env dotenv = true →
  (∀ r, connect r = true) →
  let c := env_client (load_dotenv dotenv process_env) in
  mapM (pipeline (repo_agents c)) (queries inputs) = Ok ys →
  ∃ t, run_module connect "__main__" process_env dotenv inputs =
         Some (t, if exits inputs then Finished else SessionRaised EOFError) ∧
    prints_of t = cli_banner ++ ((λ y, "Agent: " +:+ y +:+ newline) <$> ys) ++
                  (if exits inputs then ["Goodbye!"] else []) ∧
    resource_trace t = (Enter <$> repo_resources c) ++ (Exit <$> reverse (repo_resources c)).
Proof.
  intros Hm Hc Hconn c Hq.
  destruct (run_module_cli connect process_env dotenv inputs Hm Hc Hconn) as (w & Hw & ->).
  destruct (repl_loop_all_answered (repo_agents c) w (repo_workflow_pipeline c w Hw) inputs ys Hq)
    as [Hp Hs].
  exists ((Print <$> cli_banner) ++ (Enter <$> repo_resources c) ++ (repl_loop w inputs).1 ++
            (Exit <$> reverse (repo_resources c))).
  split; [rewrite Hs; by destruct (exits inputs)|].
  destruct (cli_trace_views cli_banner (repo_resources c) (repl_loop w inputs).1) as [-> ->].
  by rewrite Hp, repl_loop_no_resources.
Qed.

(** C6: an agent failure ends the whole program: running [src/main.py]
    with credentials, no [MODE] and every connection open, when the first
    input line is a query on which an agent fails, the workflow runs once
    on it, nothing but the banner is printed, the four resources are still
    exited in reverse order, the rest of the input is never read, and the
    script ends with that agent's error uncaught (spec section 7 asks the
    runner to report it and go on). *)
Theorem cli_program_failed_query {E} `{!AgentService E} connect process_env dotenv line rest n e :
  process_env !! "MODE" = None → has_credentials process_env dotenv = true →
  (∀ r, connect r = true) →
  py_falsy (py_strip line) = false → is_exit_command (py_strip line) = false →
  let c := env_client (load_dotenv dotenv process_env) in
  pipeline (repo_agents c) (py_strip line) = Err (n, e) →
  ∃ t, run_module connect "__main__" process_env dotenv (line :: rest) =
         Some (t, SessionRaised (WorkflowRaised (ExecutorError n e))) ∧
    runs_of t = [py_strip line] ∧ prints_of t = cli_banner ∧
    resource_trace t = (Enter <$> repo_resources c) ++ (Exit <$> reverse (repo_resources c)).
Proof.
  intros Hm Hc Hconn Hf Hx c Hp.
  destruct (run_module_cli connect process_env dotenv (line :: rest) Hm Hc Hconn) as (w & Hw & ->).
  destruct (repo_workflow_pipeline c w Hw (py_strip line)) as [Ho Hs].
  rewrite Hp in Ho, Hs.
  assert (Hl : repl_loop w (line :: rest) =
            ([Prompt "You: "; RunWorkflow (py_strip line)], Some (WorkflowRaised (ExecutorError n e)))).
  { cbn [repl_loop]. rewrite Hf, Hx.
    destruct (run_stream w (py_strip line)) as [evs err]. cbn [fst snd run_outputs run_status] in Ho, Hs.
    subst err. by rewrite Ho. }
  rewrite Hl. cbn [fst snd].
  exists ((Print <$> cli_banner) ++ (Enter <$> repo_resources c) ++
            [Prompt "You: "; RunWorkflow (py_strip line)] ++ (Exit <$> reverse (repo_resources c))).
  split; [reflexivity|].
  destruct (cli_trace_views cli_banner (repo_resources c)
              [Prompt "You: "; RunWorkflow (py_strip line)]) as [Hpr Hrt].
  split_and!; [|by rewrite Hpr, app_nil_r|by rewrite Hrt].
  by rewrite !runs_of_app, !runs_of_fmap_nil by (intros; discriminate).
Qed.

(** C22: running the nested variant as a script with no [MODE] in the
    process environment and only an endpoint configured (the API key may
    be absent): it prints its start-up line and the dev UI banner and
    hands the documentation workflow and its three agents, built on a
    [DefaultAzureCredential] client, to the dev UI server with
    [auto_open=True]. *)
Theorem nested_program_serves_devui {E} `{!AgentService E} connect process_env dotenv inputs :
  process_env !! "MODE" = None →
  let env := load_dotenv dotenv process_env in
  py_truthy_opt (env !! "AZURE_OPENAI_ENDPOINT") = true →
  let c := nested_client env in
  ∃ w, create_documentation_workflow (create_rewrite_agent c) (create_docs_agent c).1
         (create_summarize_agent c) = Ok w ∧
    run_module_nested connect "__main__" process_env dotenv inputs =
      Some (Print <$> (loaded_env_line (env !! "AZURE_OPENAI_ENDPOINT")
                         (env !! "AZURE_OPENAI_RESPONSES_DEPLOYMENT_NAME")
                         (env !! "AZURE_OPENAI_API_KEY") :: devui_banner),
            Serving (DevUI [WorkflowEntity w; AgentEntity (create_rewrite_agent c);
                            AgentEntity (create_docs_agent c).1; AgentEntity (create_summarize_agent c)] true)).
Proof.
  intros Hm env He c.
  destruct (build_app_ok c) as (w & Hb & Hw). exists w. split; [exact Hw|].
  unfold run_module_nested, run_module_with, run_main_with. rewrite bool_decide_eq_true_2 by done.
  unfold main_nested, create_workflow_nested. cbv zeta. fold env. rewrite He. cbn [negb].
  change (build_app _) with (build_app c). rewrite Hb.
  unfold MODE_nested, getenv_default. rewrite Hm. reflexivity.
Qed.

(** ** Witnesses *)

Lemma cli_program_session_witness :
  let c := env_client (load_dotenv example_dotenv ∅) in
  ∃ t ys, @mapM (result (string * string)) _ _ _ _ (@pipeline _ echo_service (repo_agents c))
            (queries [scenario_query; " EXIT "]) = Ok ys ∧
    @run_module _ echo_service (λ _, true) "__main__" ∅ example_dotenv [scenario_query; " EXIT "] =
      Some (t, Finished) ∧
    prints_of t = cli_banner ++
      ["Agent: summarize-agent: microsoft-docs-agent: rewrite-agent: wut is Azure Blob torage" +:+ newline;
       "Goodbye!"].
Proof.
  intros c.
  assert (Hm : (∅ : Env) !! "MODE" = None) by reflexivity.
  assert (Hc : has_credentials ∅ example_dotenv = true) by (vm_compute; reflexivity).
  assert (Hq : @mapM (result (string * string)) _ _ _ _ (@pipeline _ echo_service (repo_agents c))
    (queries [scenario_query; " EXIT "]) =
    Ok ["summarize-agent: microsoft-docs-agent: rewrite-agent: wut is Azure Blob torage"])
    by (vm_compute; reflexivity).
  destruct (@cli_program_session _ echo_service (λ _, true) ∅ example_dotenv _ _ Hm Hc (λ _, eq_refl) Hq)
    as (t & Hrun & Hp & _).
  eexists t, _. split; [exact Hq|]. split; [exact Hrun|]. rewrite Hp. vm_compute. reflexivity.
Defined.

Lemma nested_program_serves_devui_witness :
  let dotenv : Env := {[ "AZURE_OPENAI_ENDPOINT" := "https://example.openai.azure.com/" ]} in
  (∅ : Env) !! "MODE" = None ∧
  py_truthy_opt (load_dotenv dotenv ∅ !! "AZURE_OPENAI_ENDPOINT") = true ∧
  ∃ out o, @run_module_nested _ echo_service (λ _, true) "__main__" ∅ dotenv [] = Some (out, o) ∧
    prints_of out = ["Loaded environment variables: ENDPOINT=https://example.openai.azure.com/, DEPLOYMENT=None, API_KEY=None";
                     "Starting in Dev UI mode...";
                     "Microsoft Docs Agent Workflow. Dev UI will open in your browser."].
Proof.
  intros dotenv.
  assert (Hm : (∅ : Env) !! "MODE" = None) by reflexivity.
  assert (He : py_truthy_opt (load_dotenv dotenv ∅ !! "AZURE_OPENAI_ENDPOINT") = true)
    by (vm_compute; reflexivity).
  split; [exact Hm|]. split; [exact He|].
  destruct (@nested_program_serves_devui _ echo_service (λ _, true) ∅ dotenv [] Hm He) as (w & _ & Hrun).
  eexists _, _. split; [exact Hrun|]. vm_compute. reflexivity.
Defined.

Lemma cli_program_failed_query_witness :
  let c := env_client (load_dotenv example_dotenv ∅) in
  @pipeline _ docs_down_service (repo_agents c) (py_strip scenario_query) =
    Err ("microsoft-docs-agent", "UpstreamServiceError") ∧
  ∃ t, @run_module _ docs_down_service (λ _, true) "__main__" ∅ example_dotenv
         [scenario_query; "What is AKS?"] =
       Some (t, SessionRaised (WorkflowRaised (ExecutorError "microsoft-docs-agent" "UpstreamServiceError"))) ∧
    runs_of t = ["wut is Azure Blob torage"].
Proof.
  intros c.
  assert (Hm : (∅ : Env) !! "MODE" = None) by reflexivity.
  assert (Hc : has_credentials ∅ example_dotenv = true) by (vm_compute; reflexivity).
  assert (Hf : py_falsy (py_strip scenario_query) = false) by reflexivity.
  assert (Hx : is_exit_command (py_strip scenario_query) = false) by (vm_compute; reflexivity).
  assert (Hp : @pipeline _ docs_down_service (repo_agents c) (py_strip scenario_query) =
    Err ("microsoft-docs-agent", "UpstreamServiceError")) by (vm_compute; reflexivity).
  split; [exact Hp|].
  destruct (@cli_program_failed_query _ docs_down_service (λ _, true) ∅ example_dotenv
              scenario_query ["What is AKS?"] _ _ Hm Hc (λ _, eq_refl) Hf Hx Hp) as (t & Hrun & Hr & _).
  exists t. split; [exact Hrun|]. rewrite Hr. reflexivity.
Defined.
