(* ===== verification/Hosted.v ===== *)
(** * The hosted-agent mode: the workflow as an agent, served per request

    In [MODE == "hosted_agent"], [main] of [src/main.py] (lines 47-51)
    prints its banner, wraps the workflow with [workflow.as_agent()] and
    hands the result to [from_agent_framework(workflow_agent).run()].
    Neither [as_agent] nor the adapter is code of this repository; both are
    modelled from the spec (section 2: the hosted endpoint wraps the
    pipeline as one agent-shaped entity; the hosting surfaces keep no state
    of their own; section 7: an error aborts only the run it occurs in and
    the endpoint reports it as a failed request).

    - [as_agent] keeps the workflow; [workflow_agent_run] runs it on one
      message and answers with the data of its output events, or raises
      the run's error.
    - [serve_requests] answers a sequence of requests one by one, each
      with a fresh run: the reply of one request does not depend on the
      others.
    - [serve_outcome] is the hosted branch of [main] on the outcome of the
      dispatch. *)

From S2P Require Import Prelude Agents Workflow Repl Main Program.

(** ** Definitions *)

(** [workflow.as_agent()]. *)
Record WorkflowAgent := { wa_workflow : Workflow }.

Definition as_agent (w : Workflow) : WorkflowAgent := {| wa_workflow := w |}.

Inductive HostedReply (E : Type) :=
| Answered (texts : list string)
| RequestFailed (e : RunError E).
Arguments Answered {E} texts.
Arguments RequestFailed {E} e.

Section Hosted.
Context {E : Type} `{!AgentService E}.

(** [WorkflowAgent.run(message)]: the output data of one workflow run, or
    the run's error. *)
Definition workflow_agent_run (a : WorkflowAgent) (message : string) : result (RunError E) (list string) :=
  let '(evs, err) := run_stream (wa_workflow a) message in
  match err with Some e => Err e | None => Ok (workflow_outputs evs) end.

(** The adapter's reply to one request. *)
Definition reply (a : WorkflowAgent) (message : string) : HostedReply E :=
  match workflow_agent_run a message with
  | Ok texts => Answered texts
  | Err e => RequestFailed e
  end.

(** [from_agent_framework(agent).run()] on the requests it receives. *)
Definition serve_requests (a : WorkflowAgent) (requests : list string) : list (HostedReply E) :=
  reply a <$> requests.

(** The hosted branch of [main]: [workflow.as_agent()] and the adapter;
    [None] for the other outcomes. *)
Definition serve_outcome (o : MainOutcome) (requests : list string) : option (list (HostedReply E)) :=
  match o with
  | HostedAgent w => Some (serve_requests (as_agent w) requests)
  | _ => None
  end.
End Hosted.

(** The reply the spec asks of the endpoint for one request: the composed
    answer, or the failure of the first agent that failed. *)
Definition pipeline_reply {E} `{!AgentService E} (agents : list ChatAgent) (x : string) : HostedReply E :=
  match pipeline agents x with
  | Ok y => Answered [y]
  | Err (n, e) => RequestFailed (ExecutorError n e)
  end.

(** ** Lemmas *)

(** A workflow that runs the pipeline of [agents] replies to every request
    as the pipeline does. *)
Lemma reply_pipeline {E} `{!AgentService E} agents w x :
  workflow_outputs (run_stream w x).1 = run_outputs (pipeline agents x) →
  (run_stream w x).2 = run_status (pipeline agents x) →
  reply (as_agent w) x = pipeline_reply agents x.
Proof.
  unfold reply, workflow_agent_run, pipeline_reply. cbn [wa_workflow as_agent].
  destruct (run_stream w x) as [evs err]. cbn [fst snd]. intros -> ->.
  by destruct (pipeline agents x) as [y|[n e]].
Qed.

(** With credentials and [MODE=hosted_agent] in the process environment,
    [main] prints its banner and hands the documentation workflow to the
    hosted-agent adapter. *)
Lemma main_hosted process_env dotenv :
  process_env !! "MODE" = Some "hosted_agent" → has_credentials process_env dotenv = true →
  let c := env_client (load_dotenv dotenv process_env) in
  ∃ w, create_documentation_workflow (create_rewrite_agent c) (create_docs_agent c).1
         (create_summarize_agent c) = Ok w ∧
       main process_env dotenv = (["Starting in Hosted Agent mode..."], HostedAgent w).
Proof.
  intros Hm Hc c. unfold main. rewrite create_workflow_ok by done. fold c.
  destruct (build_app_ok c) as (w & -> & Hw). exists w. split; [done|].
  unfold MODE, getenv_default. by rewrite Hm.
Qed.

(** ** The hosted program *)

(** C7: running [src/main.py] as a script with credentials and
    [MODE=hosted_agent] prints the hosted banner and hands the
    documentation workflow, as an agent, to the adapter; the adapter then
    replies to every request with summarize(docs(rewrite(request))) or
    with the failure of the first agent that failed on that request, and
    nothing else: a failed request does not affect any other one, where the
    CLI ends its session at the first failure. *)
Theorem hosted_program_replies {E} `{!AgentService E} connect process_env dotenv inputs requests :
  process_env !! "MODE" = Some "hosted_agent" → has_credentials process_env dotenv = true →
  let c := env_client (load_dotenv dotenv process_env) in
  ∃ o, run_module connect "__main__" process_env dotenv inputs =
         Some (Print <$> ["Starting in Hosted Agent mode..."], Serving o) ∧
       serve_outcome o requests = Some (pipeline_reply (repo_agents c) <$> requests).
Proof.
  intros Hm Hc c. destruct (main_hosted process_env dotenv Hm Hc) as (w & Hw & Hmain). fold c in Hw, Hmain.
  exists (HostedAgent w). split.
  - unfold run_module, run_module_with, run_main_with. rewrite bool_decide_eq_true_2 by done.
    by rewrite Hmain.
  - cbn [serve_outcome]. f_equal. apply list_fmap_ext. intros _ x _.
    destruct (repo_workflow_pipeline c w Hw x) as [Ho Hs]. by apply reply_pipeline.
Qed.

(** ** Witnesses *)

Lemma hosted_program_replies_witness :
  let env : Env := {[ "MODE" := "hosted_agent" ]} in
  env !! "MODE" = Some "hosted_agent" ∧ has_credentials env example_dotenv = true ∧
  ∃ o, @run_module _ echo_service (λ _, true) "__main__" env example_dotenv [] =
         Some (Print <$> ["Starting in Hosted Agent mode..."], Serving o) ∧
       @serve_outcome _ echo_service o ["q1"; "q2"] =
         Some [Answered ["summarize-agent: microsoft-docs-agent: rewrite-agent: q1"];
               Answered ["summarize-agent: microsoft-docs-agent: rewrite-agent: q2"]].
Proof.
  intros env.
  assert (Hm : env !! "MODE" = Some "hosted_agent") by reflexivity.
  assert (Hc : has_credentials env example_dotenv = true) by (vm_compute; reflexivity).
  split; [exact Hm|]. split; [exact Hc|].
  destruct (@hosted_program_replies _ echo_service (λ _, true) env example_dotenv [] ["q1"; "q2"] Hm Hc)
    as (o & Hrun & Hserve).
  exists o. split; [exact Hrun|]. rewrite Hserve. vm_compute. reflexivity.
Defined.
